(** * Path utilities of the filesystem server: a shallow embedding

    Source: [src/filesystem/path-utils.ts].

    A JavaScript string is modelled by [string], one [ascii] per code
    unit, so the development speaks about strings whose code units are
    below 256.  Everything the module takes from its host is a parameter
    of the model:

    - [path_normalize] is Node's [path.normalize], which is
      [path.win32.normalize] or [path.posix.normalize] depending on the
      machine the server runs on;
    - [toUpperCase_ext] is [String.prototype.toUpperCase] on the code
      units outside ASCII (Unicode case tables);
    - [URL_pathname], [decodeURIComponent] and [platform_win32] stand
      for [new URL(uri).pathname], the global [decodeURIComponent] and
      the test [process.platform === 'win32'].

    Functions that can throw return an [outcome]. *)

From Stdlib Require Import String Ascii List Bool Arith ZArith Lia.
Import ListNotations.

Open Scope string_scope.
Open Scope bool_scope.

Module PathUtils.

(** ** Code units *)

Definition code (c : ascii) : nat := nat_of_ascii c.

Definition is_slash (c : ascii) : bool := Ascii.eqb c "/".
Definition is_backslash (c : ascii) : bool := Ascii.eqb c "\".
Definition is_colon (c : ascii) : bool := Ascii.eqb c ":".
Definition is_percent (c : ascii) : bool := Ascii.eqb c "%".
Definition is_dot (c : ascii) : bool := Ascii.eqb c ".".

(** The double quote is code unit 34, the single quote 39: the two
    members of the bracketed class of the pattern on line 40. *)
Definition dquote : ascii := ascii_of_nat 34.
Definition squote : ascii := ascii_of_nat 39.
Definition is_quote (c : ascii) : bool := Ascii.eqb c dquote || Ascii.eqb c squote.

(** [[a-z]], [[A-Z]], [[a-zA-Z]], [[0-9A-Fa-f]]. *)
Definition is_lower (c : ascii) : bool := (97 <=? code c)%nat && (code c <=? 122)%nat.
Definition is_upper (c : ascii) : bool := (65 <=? code c)%nat && (code c <=? 90)%nat.
Definition is_letter (c : ascii) : bool := is_lower c || is_upper c.
Definition is_digit (c : ascii) : bool := (48 <=? code c)%nat && (code c <=? 57)%nat.
Definition is_hex (c : ascii) : bool :=
  is_digit c
  || ((65 <=? code c)%nat && (code c <=? 70)%nat)
  || ((97 <=? code c)%nat && (code c <=? 102)%nat).

(** What [String.prototype.trim] removes: WhiteSpace and LineTerminator
    of ECMAScript, as far as they are below 256 (TAB, LF, VT, FF, CR,
    SP, NBSP). *)
Definition is_whitespace (c : ascii) : bool :=
  let n := code c in
  ((9 <=? n)%nat && (n <=? 13)%nat) || (n =? 32)%nat || (n =? 160)%nat.

Definition upper_of (c : ascii) : ascii := ascii_of_nat (code c - 32).

(** A character of a pattern with the [i] flag and without the [u]
    flag: the pattern letter [l] (lower case, ASCII) matches itself and
    its upper case, and nothing outside ASCII. *)
Definition eqb_ci (c l : ascii) : bool := Ascii.eqb c l || Ascii.eqb c (upper_of l).

(** ** String primitives *)

Fixpoint startsWith (p pre : string) {struct pre} : bool :=
  match pre with
  | EmptyString => true
  | String a pre' =>
      match p with
      | String b p' => Ascii.eqb b a && startsWith p' pre'
      | EmptyString => false
      end
  end.

Definition charAt (p : string) (n : nat) : string :=
  match String.get n p with
  | Some c => String c EmptyString
  | None => EmptyString
  end.

(** [p.slice(n)] for a non-negative [n]. *)
Fixpoint slice_from (p : string) (n : nat) {struct n} : string :=
  match n, p with
  | O, _ => p
  | S n', String _ p' => slice_from p' n'
  | S _, EmptyString => EmptyString
  end.

(** [p.slice(a, b)] for [0 <= a <= b]. *)
Definition slice (p : string) (a b : nat) : string := substring a (b - a) p.

(** Longest prefix, longest suffix of code units in a class, removed. *)
Fixpoint trimStart_by (f : ascii -> bool) (s : string) : string :=
  match s with
  | String c s' => if f c then trimStart_by f s' else s
  | EmptyString => EmptyString
  end.

Fixpoint trimEnd_by (f : ascii -> bool) (s : string) : string :=
  match s with
  | EmptyString => EmptyString
  | String c s' =>
      match trimEnd_by f s' with
      | EmptyString => if f c then EmptyString else String c EmptyString
      | r => String c r
      end
  end.

Definition trim (s : string) : string :=
  trimEnd_by is_whitespace (trimStart_by is_whitespace s).

(** ** The replacements of the source, one definition per pattern *)

(** [.replace(/\//g, '\\')]: every slash becomes a backslash. *)
Fixpoint replace_slashes (s : string) : string :=
  match s with
  | EmptyString => EmptyString
  | String c s' => String (if is_slash c then "\"%char else c) (replace_slashes s')
  end.

(** The replacement of line 40, pattern [^Q|Q$] with flag [g], where
    [Q] is the class of the two quote characters: the first alternative
    can match at index 0 only and the second at the last index only;
    with the [g] flag both are tried, the second on what the first one
    left. *)
Definition strip_leading_quote (s : string) : string :=
  match s with
  | String c s' => if is_quote c then s' else s
  | EmptyString => EmptyString
  end.

Fixpoint strip_trailing_quote (s : string) : string :=
  match s with
  | EmptyString => EmptyString
  | String c EmptyString => if is_quote c then EmptyString else s
  | String c s' => String c (strip_trailing_quote s')
  end.

Definition unquote (s : string) : string :=
  strip_trailing_quote (strip_leading_quote s).

(** [.replace(/\/+/g, '/')]: a slash that is followed by a slash is
    dropped, so each run keeps one slash. *)
Fixpoint collapse_slashes (s : string) : string :=
  match s with
  | EmptyString => EmptyString
  | String c s' =>
      match s' with
      | String c' _ =>
          if is_slash c && is_slash c' then collapse_slashes s'
          else String c (collapse_slashes s')
      | EmptyString => String c EmptyString
      end
  end.

(** [.replace(/\/+$/, '')]. *)
Definition strip_trailing_slashes (s : string) : string := trimEnd_by is_slash s.

(** [.replace(/\\\\/g, '\\')]: pairs of backslashes, matched from the
    left without overlap, become one backslash each. *)
Fixpoint collapse_backslashes (s : string) : string :=
  match s with
  | String c1 (String c2 s'' as s') =>
      if is_backslash c1 && is_backslash c2
      then String c1 (collapse_backslashes s'')
      else String c1 (collapse_backslashes s')
  | _ => s
  end.

(** [.replace(/^\\{2,}/, '\\\\')]: a leading run of two or more
    backslashes becomes exactly two. *)
Definition reduce_leading_backslashes (p : string) : string :=
  if startsWith p "\\" then "\\" ++ trimStart_by is_backslash p else p.

(** ** The tests of the source *)

(** [/^\/mnt\/[a-z]\//i] *)
Definition matches_wsl_mount (p : string) : bool :=
  match p with
  | String c0 (String c1 (String c2 (String c3 (String c4 (String c5 (String c6 _)))))) =>
      is_slash c0 && eqb_ci c1 "m" && eqb_ci c2 "n" && eqb_ci c3 "t"
      && is_slash c4 && is_letter c5 && is_slash c6
  | _ => false
  end.

(** [/^\/[a-zA-Z]\//] *)
Definition matches_unix_drive (p : string) : bool :=
  match p with
  | String c0 (String c1 (String c2 _)) => is_slash c0 && is_letter c1 && is_slash c2
  | _ => false
  end.

(** [/^[a-zA-Z]:/] *)
Definition matches_drive (p : string) : bool :=
  match p with
  | String c0 (String c1 _) => is_letter c0 && is_colon c1
  | _ => false
  end.

(** [/^[a-z]:/] *)
Definition matches_lower_drive (p : string) : bool :=
  match p with
  | String c0 (String c1 _) => is_lower c0 && is_colon c1
  | _ => false
  end.

(** [/%[0-9A-Fa-f]{2}/], anywhere in the string. *)
Fixpoint has_percent_escape (s : string) : bool :=
  match s with
  | EmptyString => false
  | String c s' =>
      (is_percent c
       && match s' with
          | String h1 (String h2 _) => is_hex h1 && is_hex h2
          | _ => false
          end)
      || has_percent_escape s'
  end.

(** ** convertToWindowsPath and normalizePath *)

Section Host.

(** [toUpperCase] of one code unit outside ASCII. *)
Variable toUpperCase_ext : ascii -> string.

(** Node's [path.normalize]. *)
Variable path_normalize : string -> string.

Definition toUpperCase_unit (c : ascii) : string :=
  if is_lower c then String (upper_of c) EmptyString
  else if (code c <? 128)%nat then String c EmptyString
  else toUpperCase_ext c.

Fixpoint toUpperCase (s : string) : string :=
  match s with
  | EmptyString => EmptyString
  | String c s' => toUpperCase_unit c ++ toUpperCase s'
  end.

Definition convertToWindowsPath (p : string) : string :=
  if startsWith p "/mnt/" then
    let driveLetter := toUpperCase (charAt p 5) in
    let pathPart := replace_slashes (slice_from p 6) in
    driveLetter ++ ":" ++ pathPart
  else if matches_unix_drive p then
    let driveLetter := toUpperCase (charAt p 1) in
    let pathPart := replace_slashes (slice_from p 2) in
    driveLetter ++ ":" ++ pathPart
  else if matches_drive p then
    replace_slashes p
  else p.

(** Line 40: [trim], then the quote replacement. *)
Definition strip_quotes_and_whitespace (p : string) : string := unquote (trim p).

(** Lines 43-45. *)
Definition isUnixPath (p : string) : bool :=
  startsWith p "/" && negb (matches_wsl_mount p) && negb (matches_unix_drive p).

(** Lines 57-69: the string handed to [path.normalize]. *)
Definition normalize_backslashes (p : string) : string :=
  if startsWith p "\\" then
    let uncPath := reduce_leading_backslashes p in
    let restOfPath := collapse_backslashes (slice_from uncPath 2) in
    "\\" ++ restOfPath
  else collapse_backslashes p.

(** Lines 75-77. *)
Definition restore_unc (p normalized : string) : string :=
  if startsWith p "\\" && negb (startsWith normalized "\\")
  then "\" ++ normalized
  else normalized.

(** Lines 80-91. *)
Definition finish (normalized : string) : string :=
  if matches_drive normalized then
    let result := replace_slashes normalized in
    if matches_lower_drive result
    then toUpperCase (charAt result 0) ++ slice_from result 1
    else result
  else replace_slashes normalized.

Definition normalizePath (p : string) : string :=
  let p := strip_quotes_and_whitespace p in
  if isUnixPath p then
    strip_trailing_slashes (collapse_slashes p)
  else
    let p := convertToWindowsPath p in
    let p := normalize_backslashes p in
    let normalized := path_normalize p in
    let normalized := restore_unc p normalized in
    finish normalized.

End Host.

(** ** Exceptions and values *)

Inductive exn : Type := TypeError | URIError.

Inductive outcome (A : Type) : Type :=
| Returns (a : A)
| Throws (e : exn).

Arguments Returns {A} a.
Arguments Throws {A} e.

Definition bind {A B : Type} (m : outcome A) (k : A -> outcome B) : outcome B :=
  match m with
  | Returns a => k a
  | Throws e => Throws e
  end.

Notation "x <- m ;; k" := (bind m (fun x => k))
  (at level 61, m at next level, right associativity).

(** [try { body } catch { handler }] *)
Definition try_catch {A : Type} (body : outcome A) (handler : outcome A) : outcome A :=
  match body with
  | Returns a => Returns a
  | Throws _ => handler
  end.

(** [.replace(/^file:\/\//i, '')] *)
Definition strip_file_scheme (uri : string) : string :=
  match uri with
  | String c0 (String c1 (String c2 (String c3 (String c4 (String c5 (String c6 rest)))))) =>
      if eqb_ci c0 "f" && eqb_ci c1 "i" && eqb_ci c2 "l" && eqb_ci c3 "e"
         && is_colon c4 && is_slash c5 && is_slash c6
      then rest
      else uri
  | _ => uri
  end.

(** ** fileUriToPath and decodePossibleFileUri *)

Section Uri.

(** The JavaScript values that are not strings: the functions test
    [typeof] at run time, whatever the annotation says. *)
Variable other : Type.

Inductive value : Type :=
| VString (s : string)
| VOther (o : other).

Variable URL_pathname : string -> outcome string.
Variable decodeURIComponent : string -> outcome string.
Variable platform_win32 : bool.

(** [!uri || typeof uri !== 'string'] *)
Definition falsy_or_not_string (uri : value) : bool :=
  match uri with
  | VString s => match s with EmptyString => true | _ => false end
  | VOther _ => true
  end.

(** A method of strings called on a value: a TypeError on the rest. *)
Definition as_string (v : value) : outcome string :=
  match v with
  | VString s => Returns s
  | VOther _ => Throws TypeError
  end.

(** Lines 108-121, the body of the outer [try]. *)
Definition fileUriToPath_body (uri : value) : outcome value :=
  if falsy_or_not_string uri then Returns uri
  else
    s <- as_string uri ;;
    if negb (startsWith s "file:") then Returns uri
    else
      pathname <- URL_pathname s ;;
      p <- decodeURIComponent pathname ;;
      let p :=
        if platform_win32 then
          let p := if startsWith p "/" && matches_drive (slice p 1 3)
                   then slice_from p 1 else p in
          replace_slashes p
        else p in
      Returns (VString p).

(** Lines 126-128, the body of the inner [try]. *)
Definition fileUriToPath_fallback (uri : value) : outcome value :=
  s <- as_string uri ;;
  let withoutScheme := strip_file_scheme s in
  decoded <- decodeURIComponent withoutScheme ;;
  Returns (VString decoded).

Definition fileUriToPath (uri : value) : outcome value :=
  try_catch (fileUriToPath_body uri)
    (try_catch (fileUriToPath_fallback uri) (Returns uri)).

Definition decodePossibleFileUri (p : value) : outcome value :=
  match p with
  | VOther _ => Returns p
  | VString s =>
      if startsWith s "file:" then fileUriToPath p
      else if has_percent_escape s then
        try_catch (d <- decodeURIComponent s ;; Returns (VString d)) (Returns p)
      else Returns p
  end.

End Uri.

Arguments VString {other} s.
Arguments VOther {other} o.
Arguments falsy_or_not_string {other} uri.
Arguments as_string {other} v.
Arguments fileUriToPath_body {other} URL_pathname decodeURIComponent platform_win32 uri.
Arguments fileUriToPath_fallback {other} decodeURIComponent uri.
Arguments fileUriToPath {other} URL_pathname decodeURIComponent platform_win32 uri.
Arguments decodePossibleFileUri {other} URL_pathname decodeURIComponent platform_win32 p.

(** ** Instances of the host functions

    Used where a statement about the parameters has to be shown
    satisfiable on a real host. *)

(** *** Node's [path.posix.normalize] ([lib/path.js]): what
    [path.normalize] is on a host that is not Windows. *)

Definition zlength (s : string) : Z := Z.of_nat (String.length s).

Definition charCodeAt (s : string) (i : Z) : ascii :=
  match (if (i <? 0)%Z then None else String.get (Z.to_nat i) s) with
  | Some c => c
  | None => zero
  end.

Definition zslice (s : string) (a b : Z) : string := slice s (Z.to_nat a) (Z.to_nat b).

Fixpoint lastIndexOf_from (s : string) (c : ascii) (i found : Z) : Z :=
  match s with
  | EmptyString => found
  | String d s' => lastIndexOf_from s' c (i + 1)%Z (if Ascii.eqb d c then i else found)
  end.

(** [s.lastIndexOf(c)], [-1] when [c] does not occur. *)
Definition lastIndexOf (s : string) (c : ascii) : Z := lastIndexOf_from s c 0%Z (-1)%Z.

(** The variables of [normalizeString]; [cur] is its [code]. *)
Record ns_state : Type := mk_ns
  { res : string; lastSegmentLength : Z; lastSlash : Z; dots : Z; cur : ascii }.

(** One turn of the loop [for (let i = 0; i <= path.length; ++i)] with
    separator [/]; the [break] can only happen in the last turn, where
    it leaves the state as it is. *)
Definition normalizeString_step (path : string) (allowAboveRoot : bool)
    (st : ns_state) (i : Z) : ns_state :=
  let len := zlength path in
  if (len <=? i)%Z && is_slash (cur st) then st
  else
    let code := if (i <? len)%Z then charCodeAt path i else "/"%char in
    let rl := zlength (res st) in
    if is_slash code then
      if (lastSlash st =? i - 1)%Z || (dots st =? 1)%Z then
        mk_ns (res st) (lastSegmentLength st) i 0 code
      else if (dots st =? 2)%Z then
        let not_dotdot :=
          (rl <? 2)%Z || negb (lastSegmentLength st =? 2)%Z
          || negb (is_dot (charCodeAt (res st) (rl - 1)))
          || negb (is_dot (charCodeAt (res st) (rl - 2))) in
        if not_dotdot && (2 <? rl)%Z then
          let lastSlashIndex := lastIndexOf (res st) "/" in
          if (lastSlashIndex =? -1)%Z then mk_ns EmptyString 0 i 0 code
          else
            let r := zslice (res st) 0 lastSlashIndex in
            mk_ns r (zlength r - 1 - lastIndexOf r "/")%Z i 0 code
        else if not_dotdot && negb (rl =? 0)%Z then
          mk_ns EmptyString 0 i 0 code
        else if allowAboveRoot then
          mk_ns (res st ++ (if (0 <? rl)%Z then "/.." else "..")) 2 i 0 code
        else mk_ns (res st) (lastSegmentLength st) i 0 code
      else
        let segment := zslice path (lastSlash st + 1) i in
        mk_ns (if (0 <? rl)%Z then res st ++ "/" ++ segment else segment)
              (i - lastSlash st - 1)%Z i 0 code
    else if is_dot code && negb (dots st =? -1)%Z then
      mk_ns (res st) (lastSegmentLength st) (lastSlash st) (dots st + 1)%Z code
    else
      mk_ns (res st) (lastSegmentLength st) (lastSlash st) (-1)%Z code.

Definition normalizeString (path : string) (allowAboveRoot : bool) : string :=
  res (fold_left (normalizeString_step path allowAboveRoot)
         (map Z.of_nat (seq 0 (S (String.length path))))
         (mk_ns EmptyString 0 (-1) 0 zero)).

Definition posix_normalize (path : string) : string :=
  if (zlength path =? 0)%Z then "."
  else
    let isAbsolute := is_slash (charCodeAt path 0) in
    let trailingSeparator := is_slash (charCodeAt path (zlength path - 1)) in
    let path := normalizeString path (negb isAbsolute) in
    if (zlength path =? 0)%Z then
      if isAbsolute then "/" else if trailingSeparator then "./" else "."
    else
      let path := if trailingSeparator then path ++ "/" else path in
      if isAbsolute then "/" ++ path else path.

(** *** A [URL] constructor that accepts nothing: every [file:] URI
    then goes through the fall-back of [fileUriToPath]. *)
Definition URL_pathname_rejecting (uri : string) : outcome string := Throws TypeError.

(** *** [decodeURIComponent] on escapes below [%80]

    An escape from [%80] on starts a UTF-8 sequence, whose code point
    may need a code unit above 255; this instance is for inputs without
    such escapes and throws on them.  On the others it is the Decode
    operation of ECMAScript: an escape that is not [%] and two
    hexadecimal digits throws a URIError. *)

Definition hex_value (c : ascii) : option nat :=
  if is_digit c then Some (code c - 48)
  else if (65 <=? code c)%nat && (code c <=? 70)%nat then Some (code c - 55)
  else if (97 <=? code c)%nat && (code c <=? 102)%nat then Some (code c - 87)
  else None.

Fixpoint decodeURIComponent_ascii (s : string) : outcome string :=
  match s with
  | EmptyString => Returns EmptyString
  | String c s' =>
      if is_percent c then
        match s' with
        | String h1 (String h2 s'') =>
            match hex_value h1, hex_value h2 with
            | Some a, Some b =>
                if (16 * a + b <? 128)%nat then
                  r <- decodeURIComponent_ascii s'' ;;
                  Returns (String (ascii_of_nat (16 * a + b)) r)
                else Throws URIError
            | _, _ => Throws URIError
            end
        | _ => Throws URIError
        end
      else
        r <- decodeURIComponent_ascii s' ;;
        Returns (String c r)
  end.

(** An instance of [toUpperCase_ext] for the code units 128 to 255:
    the letters from 224 to 254 other than the division sign lose 32,
    the sharp s becomes SS; the micro sign and the y with diaeresis,
    whose upper case is above 255, are left alone. *)
Definition toUpperCase_latin1 (c : ascii) : string :=
  if (code c =? 223)%nat then "SS"
  else if (224 <=? code c)%nat && (code c <=? 254)%nat && negb (code c =? 247)%nat
       then String (upper_of c) EmptyString
  else String c EmptyString.

(** ** Vocabulary of the statements *)

(** The upper case of a drive letter. *)
Definition drive_upper (c : ascii) : ascii := if is_lower c then upper_of c else c.

Fixpoint contains_slash (s : string) : bool :=
  match s with
  | EmptyString => false
  | String c s' => is_slash c || contains_slash s'
  end.

(** Two slashes in a row somewhere in the string. *)
Fixpoint has_double_slash (s : string) : bool :=
  match s with
  | String c (String c' _ as s') => (is_slash c && is_slash c') || has_double_slash s'
  | _ => false
  end.

Definition first_is (f : ascii -> bool) (s : string) : bool :=
  match s with
  | String c _ => f c
  | EmptyString => false
  end.

Fixpoint last_is (f : ascii -> bool) (s : string) : bool :=
  match s with
  | EmptyString => false
  | String c EmptyString => f c
  | String _ s' => last_is f s'
  end.

(** Length of the leading run of backslashes. *)
Fixpoint leading_backslashes (s : string) : nat :=
  match s with
  | String c s' => if is_backslash c then S (leading_backslashes s') else 0
  | EmptyString => 0
  end.

(** The first drive form as the specification words it:
    [/mnt/], one letter, [/]. *)
Definition matches_mnt_letter (p : string) : bool :=
  startsWith p "/mnt/"
  && match slice_from p 5 with
     | String c (String c' _) => is_letter c && is_slash c'
     | _ => false
     end.

(** For the loop of [normalizeString]: a string of dots only, the last
    code unit of a string, and the value of [dots] after its code units. *)
Fixpoint all_dots (s : string) : bool :=
  match s with
  | EmptyString => true
  | String c s' => is_dot c && all_dots s'
  end.

Fixpoint last_unit (s : string) (default : ascii) : ascii :=
  match s with
  | EmptyString => default
  | String c s' => last_unit s' c
  end.

Definition dots_after (s : string) : Z :=
  if all_dots s then zlength s else (-1)%Z.

(** What the fall-back of [fileUriToPath] returns on a string: the
    input without its [file://], decoded, or the input itself. *)
Definition fallback_result (decode : string -> outcome string) (s : string) : string :=
  match decode (strip_file_scheme s) with
  | Returns decoded => decoded
  | Throws _ => s
  end.

(** The string [normalizePath] hands to [path.normalize] on the branch
    that is not the Unix one. *)
Definition handed_to_normalize (up : ascii -> string) (p : string) : string :=
  normalize_backslashes (convertToWindowsPath up (strip_quotes_and_whitespace p)).

(** ** expandHome *)

Section Home.

(** [os.homedir()] and Node's [path.join] on two arguments. *)
Variable os_homedir : string.
Variable path_join : string -> string -> string.

(** Lines 99-104. *)
Definition expandHome (filepath : string) : string :=
  if startsWith filepath "~/" || String.eqb filepath "~"
  then path_join os_homedir (slice_from filepath 1)
  else filepath.

End Home.

(** Node's [path.posix.join] ([lib/path.js]): the arguments that are
    not empty, joined with a slash and normalized; [.] when there is
    none. *)
Definition posix_join_step (joined : option string) (arg : string) : option string :=
  if (0 <? String.length arg)%nat then
    match joined with
    | None => Some arg
    | Some j => Some (j ++ "/" ++ arg)
    end
  else joined.

Definition posix_join (args : list string) : string :=
  match fold_left posix_join_step args None with
  | None => "."
  | Some joined => posix_normalize joined
  end.

(** The pathname of a [file://] URI with an empty host and nothing to
    escape or to resolve in its path, what [new URL] returns for it: an
    instance of [URL_pathname] for such URIs, which rejects the rest. *)
Definition URL_pathname_plain (uri : string) : outcome string :=
  if startsWith uri "file:///" then Returns (slice_from uri 7) else Throws TypeError.

(** ** More vocabulary *)

(** Every code unit of the string is in the class. *)
Fixpoint all_in (f : ascii -> bool) (s : string) : bool :=
  match s with
  | EmptyString => true
  | String c s' => f c && all_in f s'
  end.

(** Neither white space nor a quote. *)
Definition is_plain (c : ascii) : bool := negb (is_whitespace c) && negb (is_quote c).

(** The string without its slashes. *)
Fixpoint remove_slashes (s : string) : string :=
  match s with
  | EmptyString => EmptyString
  | String c s' => if is_slash c then remove_slashes s' else String c (remove_slashes s')
  end.

Fixpoint contains_percent (s : string) : bool :=
  match s with
  | EmptyString => false
  | String c s' => is_percent c || contains_percent s'
  end.

(** A code unit of ASCII. *)
Definition is_ascii (c : ascii) : bool := (code c <? 128)%nat.

(** A run of [n] backslashes. *)
Fixpoint backslashes (n : nat) : string :=
  match n with
  | O => EmptyString
  | S n' => String "\" (backslashes n')
  end.

(** * Properties *)

(** ** Code units *)

Ltac ascii_cases c :=
  destruct c as [[] [] [] [] [] [] [] []]; vm_compute; intros;
  repeat split; (reflexivity || discriminate || congruence).

Lemma letter_facts (c : ascii) :
  is_letter c = true ->
  is_slash c = false /\ is_backslash c = false /\ is_quote c = false
  /\ is_whitespace c = false /\ is_colon c = false /\ (code c <? 128)%nat = true.
Proof. ascii_cases c. Qed.

Lemma backslash_facts (c : ascii) :
  is_backslash c = true ->
  is_slash c = false /\ is_quote c = false /\ is_whitespace c = false
  /\ is_letter c = false.
Proof. ascii_cases c. Qed.

Lemma lower_is_letter (c : ascii) : is_lower c = true -> is_letter c = true.
Proof. unfold is_letter; intros ->; reflexivity. Qed.

Lemma drive_upper_facts (c : ascii) :
  is_letter c = true ->
  is_upper (drive_upper c) = true /\ is_lower (drive_upper c) = false
  /\ is_letter (drive_upper c) = true /\ is_slash (drive_upper c) = false.
Proof. ascii_cases c. Qed.

Lemma drive_upper_fixed (c : ascii) : is_lower c = false -> drive_upper c = c.
Proof. unfold drive_upper; intros ->; reflexivity. Qed.

Lemma is_slash_true (c : ascii) : is_slash c = true -> c = "/"%char.
Proof. apply Ascii.eqb_eq. Qed.

(** ** Strings *)

Lemma append_empty_r (s : string) : s ++ EmptyString = s.
Proof. induction s as [|c s IH]; simpl; [reflexivity | now rewrite IH]. Qed.

Lemma append_assoc (a b c : string) : (a ++ b) ++ c = a ++ (b ++ c).
Proof. induction a as [|x a IH]; simpl; [reflexivity | now rewrite IH]. Qed.

Lemma replace_slashes_no_slash (s : string) :
  contains_slash (replace_slashes s) = false.
Proof.
  induction s as [|c s IH]; simpl; [reflexivity |].
  rewrite IH, orb_false_r.
  destruct (is_slash c) eqn:E; [reflexivity | exact E].
Qed.

Lemma replace_slashes_id (s : string) :
  contains_slash s = false -> replace_slashes s = s.
Proof.
  induction s as [|c s IH]; simpl; [reflexivity |].
  intros H. apply orb_false_elim in H as [Hc Hs].
  now rewrite Hc, IH.
Qed.

Section UpperCase.

Variable up : ascii -> string.

Lemma toUpperCase_letter (c : ascii) :
  is_letter c = true ->
  toUpperCase up (String c EmptyString) = String (drive_upper c) EmptyString.
Proof.
  intros H. destruct (letter_facts c H) as (_ & _ & _ & _ & _ & Hlt).
  unfold drive_upper. cbn [toUpperCase]. unfold toUpperCase_unit.
  destruct (is_lower c); [reflexivity |].
  rewrite Hlt. reflexivity.
Qed.

(** Input that is in none of the three forms the function tests is
    returned as it is. *)
Lemma convertToWindowsPath_passthrough (p : string) :
  startsWith p "/mnt/" = false ->
  matches_unix_drive p = false ->
  matches_drive p = false ->
  convertToWindowsPath up p = p.
Proof.
  intros H1 H2 H3. unfold convertToWindowsPath. now rewrite H1, H2, H3.
Qed.

Lemma convertToWindowsPath_no_slash (p : string) :
  contains_slash p = false -> convertToWindowsPath up p = p.
Proof.
  intros H. unfold convertToWindowsPath.
  destruct p as [|c0 p]; [reflexivity |].
  cbn [contains_slash] in H. apply orb_false_elim in H as [H0 H].
  assert (E1 : startsWith (String c0 p) "/mnt/" = false).
  { cbn [startsWith]. fold (is_slash c0). now rewrite H0. }
  assert (E2 : matches_unix_drive (String c0 p) = false).
  { unfold matches_unix_drive. destruct p as [|c1 [|c2 p]]; try reflexivity.
    now rewrite H0. }
  rewrite E1, E2.
  destruct (matches_drive (String c0 p)); [|reflexivity].
  apply replace_slashes_id. cbn [contains_slash]. now rewrite H0, H.
Qed.

End UpperCase.

(** ** convertToWindowsPath *)

(** C6. For a WSL mount path [/mnt/<letter>/rest] and for a Unix-style
    drive path [/<letter>/rest], [convertToWindowsPath] returns the
    upper-cased letter, a colon, and what follows the letter with every
    slash turned into a backslash; so [/mnt/c/Users/x] gives
    [C:\Users\x] and [/d/foo/bar] gives [D:\foo\bar]. *)
Theorem convertToWindowsPath_drive_forms :
  forall (up : ascii -> string) (c : ascii) (rest : string),
    is_letter c = true ->
    convertToWindowsPath up ("/mnt/" ++ String c ("/" ++ rest))
    = String (drive_upper c) (":\" ++ replace_slashes rest)
    /\ convertToWindowsPath up ("/" ++ String c ("/" ++ rest))
       = String (drive_upper c) (":\" ++ replace_slashes rest)
    /\ is_upper (drive_upper c) = true
    /\ contains_slash (replace_slashes rest) = false
    /\ convertToWindowsPath up "/mnt/c/Users/x" = "C:\Users\x"
    /\ convertToWindowsPath up "/d/foo/bar" = "D:\foo\bar".
Proof.
  intros up c rest Hc.
  pose proof (toUpperCase_letter up c Hc) as Hup.
  destruct (drive_upper_facts c Hc) as (Hupper & _).
  split; [| split; [| split; [| split; [| split]]]].
  - unfold convertToWindowsPath.
    change (startsWith ("/mnt/" ++ String c ("/" ++ rest)) "/mnt/") with true.
    cbv iota.
    change (charAt ("/mnt/" ++ String c ("/" ++ rest)) 5) with (String c EmptyString).
    change (slice_from ("/mnt/" ++ String c ("/" ++ rest)) 6) with ("/" ++ rest).
    rewrite Hup. reflexivity.
  - unfold convertToWindowsPath.
    assert (E : startsWith ("/" ++ String c ("/" ++ rest)) "/mnt/" = false).
    { cbn. destruct (Ascii.eqb c "m"); reflexivity. }
    rewrite E.
    assert (M : matches_unix_drive ("/" ++ String c ("/" ++ rest)) = true).
    { cbn. now rewrite Hc. }
    rewrite M.
    change (charAt ("/" ++ String c ("/" ++ rest)) 1) with (String c EmptyString).
    change (slice_from ("/" ++ String c ("/" ++ rest)) 2) with ("/" ++ rest).
    rewrite Hup. reflexivity.
  - exact Hupper.
  - apply replace_slashes_no_slash.
  - reflexivity.
  - reflexivity.
Qed.

Lemma convertToWindowsPath_drive_forms_witness :
  is_letter "c" = true
  /\ convertToWindowsPath toUpperCase_latin1 ("/mnt/" ++ String "c" ("/" ++ "Users/x"))
     = String (drive_upper "c") (":\" ++ replace_slashes "Users/x").
Proof.
  split; [reflexivity |].
  exact (proj1 (convertToWindowsPath_drive_forms toUpperCase_latin1 "c" "Users/x" eq_refl)).
Defined.

(** C3. The input [/mnt/foo/bar] is in none of the three drive forms:
    what follows [/mnt/] is not one letter and a slash.  The function
    tests the prefix [/mnt/] alone, takes [f] for the drive and drops
    the code unit after it: the input does not come back unchanged. *)
Theorem convertToWindowsPath_mnt_without_drive :
  forall up : ascii -> string,
    matches_mnt_letter "/mnt/foo/bar" = false
    /\ matches_unix_drive "/mnt/foo/bar" = false
    /\ matches_drive "/mnt/foo/bar" = false
    /\ convertToWindowsPath up "/mnt/foo/bar" = "F:oo\bar"
    /\ convertToWindowsPath up "/mnt/foo/bar" <> "/mnt/foo/bar".
Proof.
  intros up. repeat split. discriminate.
Qed.

(** [normalizePath] asks for the letter and the slash before it takes a
    path for a WSL mount: the test the function above leaves out. *)
Lemma matches_wsl_mount_mnt_letter (p : string) :
  matches_mnt_letter p = true -> matches_wsl_mount p = true.
Proof.
  unfold matches_mnt_letter.
  destruct p as [|c0 [|c1 [|c2 [|c3 [|c4 [|c5 [|c6 p]]]]]]];
    cbn [startsWith slice_from matches_wsl_mount];
    rewrite ?andb_false_r; try discriminate.
  intros H.
  repeat match goal with
         | H : _ && _ = true |- _ => apply andb_prop in H as [? ?]
         | H : Ascii.eqb _ _ = true |- _ => apply Ascii.eqb_eq in H; subst
         | H : is_slash _ = true |- _ => apply is_slash_true in H; subst
         end.
  cbn. now rewrite andb_true_r.
Qed.

(** ** Trimming and unquoting *)

Section Trimming.

Variable f : ascii -> bool.

Lemma trimEnd_by_keep (c : ascii) (s : string) :
  f c = false -> trimEnd_by f (String c s) = String c (trimEnd_by f s).
Proof.
  intros H. cbn [trimEnd_by]. rewrite H.
  destruct (trimEnd_by f s); reflexivity.
Qed.

Lemma trimEnd_by_last (s : string) : last_is f (trimEnd_by f s) = false.
Proof.
  induction s as [|c s IH]; [reflexivity |].
  cbn [trimEnd_by].
  destruct (trimEnd_by f s) as [|d r] eqn:E.
  - destruct (f c) eqn:Ec; [reflexivity | exact Ec].
  - exact IH.
Qed.

Lemma trimEnd_by_id (s : string) : last_is f s = false -> trimEnd_by f s = s.
Proof.
  induction s as [|c s IH]; [reflexivity |].
  intros H. cbn [trimEnd_by].
  destruct s as [|d s].
  - cbn in H |- *. now rewrite H.
  - rewrite IH by exact H.
    reflexivity.
Qed.

Lemma trimEnd_by_idem (s : string) :
  trimEnd_by f (trimEnd_by f s) = trimEnd_by f s.
Proof. apply trimEnd_by_id, trimEnd_by_last. Qed.

Lemma trimStart_by_first (s : string) : first_is f (trimStart_by f s) = false.
Proof.
  induction s as [|c s IH]; [reflexivity |].
  cbn [trimStart_by]. destruct (f c) eqn:E; [exact IH | exact E].
Qed.

End Trimming.

Lemma strip_trailing_quote_keep (c : ascii) (s : string) :
  is_quote c = false ->
  strip_trailing_quote (String c s) = String c (strip_trailing_quote s).
Proof. intros H. destruct s; cbn; [now rewrite H | reflexivity]. Qed.

Lemma strip_trailing_quote_app (m : string) (q : ascii) :
  is_quote q = true -> strip_trailing_quote (m ++ String q EmptyString) = m.
Proof.
  intros H. induction m as [|c m IH].
  - cbn. now rewrite H.
  - change (String c m ++ String q EmptyString) with (String c (m ++ String q EmptyString)).
    cbn [strip_trailing_quote]. rewrite IH.
    destruct m; reflexivity.
Qed.

Lemma strip_trailing_quote_id (s : string) :
  last_is is_quote s = false -> strip_trailing_quote s = s.
Proof.
  induction s as [|c s IH]; [reflexivity |].
  intros H. destruct s as [|d s].
  - cbn in H |- *. now rewrite H.
  - change (strip_trailing_quote (String c (String d s)))
      with (String c (strip_trailing_quote (String d s))).
    rewrite IH by exact H. reflexivity.
Qed.

(** C4 (as the code has it). After trimming, a leading quote is removed
    whenever there is one and a trailing quote is removed whenever
    there is one, each without regard to the other: a quote on one side
    only is removed as well. *)
Theorem strip_quotes_each_side_independently :
  forall (s : string),
    (forall q m, is_quote q = true -> last_is is_quote m = false ->
                 trim s = String q m -> strip_quotes_and_whitespace s = m)
    /\ (forall q m, is_quote q = true -> first_is is_quote m = false ->
                    trim s = m ++ String q EmptyString ->
                    strip_quotes_and_whitespace s = m)
    /\ (forall q q' m, is_quote q = true -> is_quote q' = true ->
                       trim s = String q (m ++ String q' EmptyString) ->
                       strip_quotes_and_whitespace s = m)
    /\ (first_is is_quote (trim s) = false -> last_is is_quote (trim s) = false ->
        strip_quotes_and_whitespace s = trim s).
Proof.
  intros s. unfold strip_quotes_and_whitespace, unquote.
  split; [| split; [| split]].
  - intros q m Hq Hm ->. cbn [strip_leading_quote]. rewrite Hq.
    now apply strip_trailing_quote_id.
  - intros q m Hq Hm ->. destruct m as [|c m].
    + cbn. now rewrite Hq.
    + cbn [first_is] in Hm.
      change (String c m ++ String q EmptyString)
        with (String c (m ++ String q EmptyString)).
      cbn [strip_leading_quote]. rewrite Hm.
      change (String c (m ++ String q EmptyString))
        with (String c m ++ String q EmptyString).
      now apply strip_trailing_quote_app.
  - intros q q' m Hq Hq' ->. cbn [strip_leading_quote]. rewrite Hq.
    now apply strip_trailing_quote_app.
  - intros Hf Hl. destruct (trim s) as [|c t] eqn:E; [reflexivity |].
    cbn [first_is] in Hf. cbn [strip_leading_quote]. rewrite Hf.
    now apply strip_trailing_quote_id.
Qed.

(** C4 as the specification has it fails on a path with an opening
    double quote and no closing one: the quote does not stay. *)
Lemma strip_quotes_one_sided_counterexample :
  first_is is_quote (trim (String dquote "/abc")) = true
  /\ last_is is_quote (trim (String dquote "/abc")) = false
  /\ strip_quotes_and_whitespace (String dquote "/abc") = "/abc"
  /\ strip_quotes_and_whitespace (String dquote "/abc") <> trim (String dquote "/abc")
  /\ normalizePath toUpperCase_latin1 posix_normalize (String dquote "/abc") = "/abc".
Proof. repeat split. discriminate. Qed.

(** ** The Unix branch of normalizePath *)

Lemma has_double_slash_cons (c : ascii) (s : string) :
  has_double_slash (String c s)
  = (is_slash c && first_is is_slash s) || has_double_slash s.
Proof. destruct s; cbn; [now rewrite andb_false_r | reflexivity]. Qed.

Lemma collapse_slashes_first (g : ascii -> bool) (s : string) :
  first_is g (collapse_slashes s) = first_is g s.
Proof.
  induction s as [|c s IH]; [reflexivity |].
  cbn [collapse_slashes]. destruct s as [|c' s]; [reflexivity |].
  destruct (is_slash c && is_slash c') eqn:E; [| reflexivity].
  rewrite IH. apply andb_prop in E as [E1 E2].
  apply is_slash_true in E1, E2. now subst.
Qed.

Lemma collapse_slashes_no_double (s : string) :
  has_double_slash (collapse_slashes s) = false.
Proof.
  induction s as [|c s IH]; [reflexivity |].
  cbn [collapse_slashes]. destruct s as [|c' s]; [reflexivity |].
  destruct (is_slash c && is_slash c') eqn:E; [exact IH |].
  rewrite has_double_slash_cons, IH, orb_false_r.
  rewrite collapse_slashes_first. exact E.
Qed.

Lemma collapse_slashes_id (s : string) :
  has_double_slash s = false -> collapse_slashes s = s.
Proof.
  induction s as [|c s IH]; [reflexivity |].
  rewrite has_double_slash_cons. intros H.
  apply orb_false_elim in H as [H1 H2].
  cbn [collapse_slashes]. destruct s as [|c' s]; [reflexivity |].
  cbn [first_is] in H1. rewrite H1. now rewrite IH.
Qed.

Lemma trimEnd_by_nonempty_first (f g : ascii -> bool) (s : string) :
  trimEnd_by f s <> EmptyString ->
  first_is g (trimEnd_by f s) = first_is g s.
Proof.
  destruct s as [|c s]; [reflexivity |].
  cbn [trimEnd_by]. destruct (trimEnd_by f s).
  - destruct (f c); [intros H; now elim H | reflexivity].
  - reflexivity.
Qed.

Lemma trimEnd_by_no_double (f : ascii -> bool) (s : string) :
  has_double_slash s = false -> has_double_slash (trimEnd_by f s) = false.
Proof.
  induction s as [|c s IH]; [reflexivity |].
  rewrite has_double_slash_cons. intros H.
  apply orb_false_elim in H as [H1 H2].
  cbn [trimEnd_by]. destruct (trimEnd_by f s) as [|d r] eqn:E.
  - destruct (f c); reflexivity.
  - rewrite has_double_slash_cons, IH, orb_false_r by exact H2.
    rewrite <- E, trimEnd_by_nonempty_first by (rewrite E; discriminate).
    exact H1.
Qed.

(** The result of the Unix branch is a fixed point of the Unix branch. *)
Lemma unix_form_stable (p : string) :
  strip_trailing_slashes (collapse_slashes (strip_trailing_slashes (collapse_slashes p)))
  = strip_trailing_slashes (collapse_slashes p).
Proof.
  unfold strip_trailing_slashes.
  rewrite (collapse_slashes_id (trimEnd_by is_slash (collapse_slashes p))).
  - apply trimEnd_by_idem.
  - apply trimEnd_by_no_double, collapse_slashes_no_double.
Qed.

Section NormalizePath.

Variable up : ascii -> string.
Variable norm : string -> string.

(** On the Unix branch the result is the input, trimmed and unquoted,
    with every run of slashes collapsed and no slash at the end. *)
Lemma normalizePath_unix (x : string) :
  isUnixPath (strip_quotes_and_whitespace x) = true ->
  normalizePath up norm x
  = strip_trailing_slashes (collapse_slashes (strip_quotes_and_whitespace x))
  /\ has_double_slash (normalizePath up norm x) = false
  /\ last_is is_slash (normalizePath up norm x) = false.
Proof.
  intros H. unfold normalizePath. rewrite H. split; [reflexivity | split].
  - apply trimEnd_by_no_double, collapse_slashes_no_double.
  - apply trimEnd_by_last.
Qed.

Lemma normalizePath_windows (x : string) :
  isUnixPath (strip_quotes_and_whitespace x) = false ->
  normalizePath up norm x
  = finish up (restore_unc (handed_to_normalize up x)
                           (norm (handed_to_normalize up x))).
Proof. intros H. unfold normalizePath. now rewrite H. Qed.

End NormalizePath.

(** C2. The root path is classified as a Unix path, and the removal of
    the trailing slashes, which has no case for the root, leaves the
    empty string where the claim has the root itself. *)
Theorem normalizePath_root_is_emptied :
  forall (up : ascii -> string) (norm : string -> string),
    isUnixPath (strip_quotes_and_whitespace "/") = true
    /\ normalizePath up norm "/" = EmptyString
    /\ normalizePath up norm "/" <> "/"
    /\ normalizePath up norm "///" = EmptyString.
Proof. intros up norm. repeat split. discriminate. Qed.

(** ** The Windows branch of normalizePath *)

Lemma replaced_unit_facts (c : ascii) :
  is_letter (if is_slash c then "\"%char else c) = is_letter c
  /\ is_lower (if is_slash c then "\"%char else c) = is_lower c
  /\ is_colon (if is_slash c then "\"%char else c) = is_colon c.
Proof. ascii_cases c. Qed.

Lemma matches_drive_replace_slashes (s : string) :
  matches_drive (replace_slashes s) = matches_drive s.
Proof.
  destruct s as [|c0 [|c1 s]]; try reflexivity.
  cbn [replace_slashes matches_drive].
  destruct (replaced_unit_facts c0) as (-> & _ & _).
  destruct (replaced_unit_facts c1) as (_ & _ & ->).
  reflexivity.
Qed.

Lemma matches_lower_drive_drive (s : string) :
  matches_lower_drive s = true -> matches_drive s = true.
Proof.
  destruct s as [|c0 [|c1 s]]; try discriminate.
  cbn. intros H. apply andb_prop in H as [H0 H1].
  now rewrite (lower_is_letter c0 H0), H1.
Qed.

Lemma startsWith_slash_contains (s : string) :
  contains_slash s = false -> startsWith s "/" = false.
Proof.
  destruct s as [|c s]; [reflexivity |].
  cbn. fold (is_slash c). intros H.
  apply orb_false_elim in H as [-> _]. reflexivity.
Qed.

Section Finish.

Variable up : ascii -> string.

(** The last stage on a string of the form letter, colon, rest. *)
Lemma finish_drive (d : ascii) (tail : string) :
  is_letter d = true ->
  finish up (String d (":" ++ tail))
  = String (drive_upper d) (":" ++ replace_slashes tail).
Proof.
  intros Hd. destruct (letter_facts d Hd) as (Hs & _).
  unfold finish. cbn [matches_drive append]. rewrite Hd. cbn [andb is_colon Ascii.eqb].
  change (is_colon ":") with true. cbv iota.
  cbn [replace_slashes]. rewrite Hs. change (is_slash ":") with false. cbv iota.
  cbn [matches_lower_drive]. change (is_colon ":") with true. rewrite andb_true_r.
  destruct (is_lower d) eqn:El.
  - change (charAt (String d (String ":" (replace_slashes tail))) 0)
      with (String d EmptyString).
    rewrite (toUpperCase_letter up d Hd). reflexivity.
  - now rewrite (drive_upper_fixed d El).
Qed.

Lemma finish_no_slash (n : string) : contains_slash (finish up n) = false.
Proof.
  unfold finish. destruct (matches_drive n); [| apply replace_slashes_no_slash].
  destruct (matches_lower_drive (replace_slashes n)) eqn:E;
    [| apply replace_slashes_no_slash].
  pose proof (replace_slashes_no_slash n) as Hn.
  destruct (replace_slashes n) as [|c0 [|c1 t]]; try discriminate E.
  cbn in E. apply andb_prop in E as [E0 E1].
  change (charAt (String c0 (String c1 t)) 0) with (String c0 EmptyString).
  rewrite (toUpperCase_letter up c0 (lower_is_letter c0 E0)).
  cbn [slice_from append contains_slash] in Hn |- *.
  apply orb_false_elim in Hn as [_ Hn]. rewrite Hn.
  destruct (drive_upper_facts c0 (lower_is_letter c0 E0)) as (_ & _ & _ & ->).
  reflexivity.
Qed.

Lemma finish_not_lower_drive (n : string) :
  matches_lower_drive (finish up n) = false.
Proof.
  unfold finish. destruct (matches_drive n) eqn:Ed.
  - destruct (matches_lower_drive (replace_slashes n)) eqn:E; [| exact E].
    destruct (replace_slashes n) as [|c0 [|c1 t]]; try discriminate E.
    cbn in E. apply andb_prop in E as [E0 E1].
    change (charAt (String c0 (String c1 t)) 0) with (String c0 EmptyString).
    rewrite (toUpperCase_letter up c0 (lower_is_letter c0 E0)).
    cbn [slice_from append matches_lower_drive].
    destruct (drive_upper_facts c0 (lower_is_letter c0 E0)) as (_ & -> & _).
    reflexivity.
  - destruct (matches_lower_drive (replace_slashes n)) eqn:E; [| reflexivity].
    apply matches_lower_drive_drive in E.
    rewrite matches_drive_replace_slashes in E. congruence.
Qed.

(** The last stage leaves alone a string it could have produced. *)
Lemma finish_id (r : string) :
  contains_slash r = false -> matches_lower_drive r = false -> finish up r = r.
Proof.
  intros Hs Hl. unfold finish. rewrite (replace_slashes_id r Hs), Hl.
  destruct (matches_drive r); reflexivity.
Qed.

End Finish.

Lemma restore_unc_same (r : string) : restore_unc r r = r.
Proof. unfold restore_unc. destruct (startsWith r "\\"); reflexivity. Qed.

(** What the branch that is not the Unix one returns: no slash, and no
    lower-case drive letter. *)
Lemma windows_result_facts (up : ascii -> string) (norm : string -> string) (x : string) :
  isUnixPath (strip_quotes_and_whitespace x) = false ->
  contains_slash (normalizePath up norm x) = false
  /\ matches_lower_drive (normalizePath up norm x) = false.
Proof.
  intros H. rewrite (normalizePath_windows up norm x H). split.
  - apply finish_no_slash.
  - apply finish_not_lower_drive.
Qed.

(** C10. When [normalizePath] does not return from the Unix branch, the
    string it returns has no slash in it. *)
Theorem normalizePath_windows_no_slash :
  forall (up : ascii -> string) (norm : string -> string) (x : string),
    isUnixPath (strip_quotes_and_whitespace x) = false ->
    contains_slash (normalizePath up norm x) = false.
Proof.
  intros up norm x H. exact (proj1 (windows_result_facts up norm x H)).
Qed.

Lemma normalizePath_windows_no_slash_witness :
  isUnixPath (strip_quotes_and_whitespace "/mnt/c/Users//x/../y") = false
  /\ contains_slash
       (normalizePath toUpperCase_latin1 posix_normalize "/mnt/c/Users//x/../y")
     = false.
Proof.
  split; [reflexivity |].
  exact (normalizePath_windows_no_slash toUpperCase_latin1 posix_normalize
           "/mnt/c/Users//x/../y" eq_refl).
Defined.

(** ** [path.posix.normalize] on a string without slash

    Such a string is one segment, and the loop of [normalizeString]
    only counts its leading dots until the turn after the last code
    unit. *)

Lemma all_dots_app (a b : string) : all_dots (a ++ b) = all_dots a && all_dots b.
Proof.
  induction a as [|c a IH]; cbn; [reflexivity |].
  now rewrite IH, andb_assoc.
Qed.

Lemma length_app (a b : string) :
  String.length (a ++ b) = String.length a + String.length b.
Proof. induction a as [|c a IH]; cbn; [reflexivity | now rewrite IH]. Qed.

Lemma last_unit_app (a : string) (c d : ascii) (b : string) :
  last_unit (a ++ String c b) d = last_unit b c.
Proof. revert d. induction a as [|x a IH]; intros d; cbn; [reflexivity | apply IH]. Qed.

Lemma get_app_length (a : string) (c : ascii) (b : string) :
  String.get (String.length a) (a ++ String c b) = Some c.
Proof. induction a as [|x a IH]; cbn; [reflexivity | exact IH]. Qed.

Lemma charCodeAt_app_length (a : string) (c : ascii) (b : string) :
  charCodeAt (a ++ String c b) (Z.of_nat (String.length a)) = c.
Proof.
  unfold charCodeAt.
  destruct (Z.ltb_spec (Z.of_nat (String.length a)) 0); [lia |].
  now rewrite Nat2Z.id, get_app_length.
Qed.

Lemma substring_all (s : string) : substring 0 (String.length s) s = s.
Proof. induction s as [|c s IH]; cbn; [reflexivity | now rewrite IH]. Qed.

Lemma normalizeString_loop_no_slash (allow : bool) (suf pre : string) (d : ascii) :
  contains_slash suf = false ->
  fold_left (normalizeString_step (pre ++ suf) allow)
    (map Z.of_nat (seq (String.length pre) (String.length suf)))
    (mk_ns EmptyString 0 (-1) (dots_after pre) (last_unit pre d))
  = mk_ns EmptyString 0 (-1) (dots_after (pre ++ suf)) (last_unit (pre ++ suf) d).
Proof.
  revert pre. induction suf as [|c suf IH]; intros pre Hs.
  - rewrite append_empty_r. reflexivity.
  - cbn [contains_slash] in Hs. apply orb_false_elim in Hs as [Hc Hs].
    cbn [String.length seq map fold_left].
    assert (Hstep : normalizeString_step (pre ++ String c suf) allow
                      (mk_ns EmptyString 0 (-1) (dots_after pre) (last_unit pre d))
                      (Z.of_nat (String.length pre))
                    = mk_ns EmptyString 0 (-1)
                        (dots_after (pre ++ String c EmptyString))
                        (last_unit (pre ++ String c EmptyString) d)).
    { assert (Hlen : zlength (pre ++ String c suf)
                     = (Z.of_nat (String.length pre) + Z.of_nat (S (String.length suf)))%Z).
      { unfold zlength. rewrite length_app. cbn [String.length]. lia. }
      assert (Hle : (zlength (pre ++ String c suf) <=? Z.of_nat (String.length pre))%Z = false)
        by (apply Z.leb_gt; lia).
      assert (Hlt : (Z.of_nat (String.length pre) <? zlength (pre ++ String c suf))%Z = true)
        by (apply Z.ltb_lt; lia).
      unfold normalizeString_step. cbn [cur res dots lastSlash lastSegmentLength].
      rewrite Hle, Hlt. cbn [andb].
      rewrite charCodeAt_app_length, Hc, last_unit_app. cbn [last_unit].
      f_equal. unfold dots_after. rewrite all_dots_app. cbn [all_dots].
      rewrite andb_true_r. unfold zlength. rewrite length_app. cbn [String.length].
      destruct (all_dots pre); cbn [andb].
      - destruct (Z.eqb_spec (Z.of_nat (String.length pre)) (-1)); [lia |].
        cbn [negb]. rewrite andb_true_r.
        destruct (is_dot c); [f_equal; lia | reflexivity].
      - rewrite andb_false_r. reflexivity. }
    rewrite Hstep.
    replace (pre ++ String c suf) with ((pre ++ String c EmptyString) ++ suf)
      by (now rewrite append_assoc).
    replace (S (String.length pre)) with (String.length (pre ++ String c EmptyString))
      by (rewrite length_app; cbn; lia).
    apply IH, Hs.
Qed.

Lemma get_no_slash (s : string) (n : nat) (c : ascii) :
  contains_slash s = false -> String.get n s = Some c -> is_slash c = false.
Proof.
  revert n. induction s as [|x s IH]; intros n Hs Hg; [discriminate Hg |].
  cbn [contains_slash] in Hs. apply orb_false_elim in Hs as [Hx Hs].
  destruct n as [|n]; cbn in Hg.
  - now injection Hg as <-.
  - exact (IH n Hs Hg).
Qed.

Lemma charCodeAt_no_slash (s : string) (i : Z) :
  contains_slash s = false -> is_slash (charCodeAt s i) = false.
Proof.
  intros Hs. unfold charCodeAt. destruct (i <? 0)%Z; [reflexivity |].
  destruct (String.get (Z.to_nat i) s) as [c |] eqn:E; [| reflexivity].
  exact (get_no_slash s _ c Hs E).
Qed.

Lemma last_unit_no_slash (s : string) (d : ascii) :
  contains_slash s = false -> is_slash d = false -> is_slash (last_unit s d) = false.
Proof.
  revert d. induction s as [|c s IH]; intros d Hs Hd; [exact Hd |].
  cbn [contains_slash] in Hs. apply orb_false_elim in Hs as [Hc Hs].
  cbn [last_unit]. now apply IH.
Qed.

Lemma all_dots_one (s : string) :
  all_dots s = true -> String.length s = 1 -> s = ".".
Proof.
  destruct s as [|c [|c' s]]; cbn; try discriminate.
  intros H _. rewrite andb_true_r in H. apply Ascii.eqb_eq in H. now subst.
Qed.

Lemma all_dots_two (s : string) :
  all_dots s = true -> String.length s = 2 -> s = "..".
Proof.
  destruct s as [|c [|c' [|c'' s]]]; cbn; try discriminate.
  intros H _. rewrite andb_true_r in H. apply andb_prop in H as [H H'].
  apply Ascii.eqb_eq in H, H'. now subst.
Qed.

Lemma normalizeString_no_slash (s : string) :
  s <> EmptyString ->
  contains_slash s = false ->
  normalizeString s true
  = if all_dots s && (String.length s =? 1)%nat then EmptyString else s.
Proof.
  intros Hne Hs. unfold normalizeString.
  rewrite seq_S, map_app, fold_left_app. cbn [map fold_left Nat.add].
  pose proof (normalizeString_loop_no_slash true s EmptyString zero Hs) as Hloop.
  cbn [append String.length last_unit] in Hloop.
  change (dots_after EmptyString) with 0%Z in Hloop.
  rewrite Hloop. clear Hloop.
  assert (Hlen : 1 <= String.length s) by (destruct s; [now elim Hne | cbn; lia]).
  unfold normalizeString_step. cbn [cur res dots lastSlash lastSegmentLength].
  rewrite (last_unit_no_slash s zero Hs eq_refl), andb_false_r.
  unfold zlength at 1. rewrite Z.ltb_irrefl.
  change (is_slash "/") with true. cbv iota.
  destruct (Z.eqb_spec (-1) (Z.of_nat (String.length s) - 1)) as [E | _]; [lia |].
  cbn [orb]. unfold dots_after, zlength.
  destruct (all_dots s) eqn:Ed; cbn [andb].
  - destruct (Z.eqb_spec (Z.of_nat (String.length s)) 1) as [E1 | E1].
    + replace (String.length s =? 1)%nat with true
        by (symmetry; apply Nat.eqb_eq; lia).
      reflexivity.
    + replace (String.length s =? 1)%nat with false
        by (symmetry; apply Nat.eqb_neq; lia).
      destruct (Z.eqb_spec (Z.of_nat (String.length s)) 2) as [E2 | E2].
      * rewrite (all_dots_two s Ed) by lia. reflexivity.
      * cbn [res String.length Z.of_nat Z.ltb Z.compare]. unfold zslice, slice.
        replace (Z.to_nat (-1 + 1)) with 0 by reflexivity.
        rewrite Nat2Z.id, Nat.sub_0_r. apply substring_all.
  - change (-1 =? 1)%Z with false. change (-1 =? 2)%Z with false. cbv iota.
    cbn [res String.length Z.of_nat Z.ltb Z.compare]. unfold zslice, slice.
    replace (Z.to_nat (-1 + 1)) with 0 by reflexivity.
    rewrite Nat2Z.id, Nat.sub_0_r. apply substring_all.
Qed.

(** On a host that is not Windows, [path.normalize] has nothing to do
    on a string without slash. *)
Lemma posix_normalize_no_slash (s : string) :
  s <> EmptyString -> contains_slash s = false -> posix_normalize s = s.
Proof.
  intros Hne Hs. unfold posix_normalize.
  assert (Hlen : 1 <= String.length s) by (destruct s; [now elim Hne | cbn; lia]).
  destruct (Z.eqb_spec (zlength s) 0) as [E | _]; [unfold zlength in E; lia |].
  rewrite !(charCodeAt_no_slash s _ Hs). cbn [negb].
  rewrite (normalizeString_no_slash s Hne Hs).
  destruct (all_dots s && (String.length s =? 1)%nat) eqn:E.
  - apply andb_prop in E as [Ed El]. apply Nat.eqb_eq in El.
    rewrite (all_dots_one s Ed El). reflexivity.
  - destruct (Z.eqb_spec (zlength s) 0) as [E0 | _]; [unfold zlength in E0; lia |].
    reflexivity.
Qed.

(** ** Stages that add no slash *)

Lemma trimEnd_by_no_slash (f : ascii -> bool) (s : string) :
  contains_slash s = false -> contains_slash (trimEnd_by f s) = false.
Proof.
  induction s as [|c s IH]; [reflexivity |].
  cbn [contains_slash trimEnd_by]. intros H.
  apply orb_false_elim in H as [Hc Hs]. specialize (IH Hs).
  destruct (trimEnd_by f s) as [|d r].
  - destruct (f c); cbn; rewrite ?Hc; reflexivity.
  - cbn [contains_slash] in IH |- *. now rewrite Hc, IH.
Qed.

Lemma trimStart_by_no_slash (f : ascii -> bool) (s : string) :
  contains_slash s = false -> contains_slash (trimStart_by f s) = false.
Proof.
  induction s as [|c s IH]; [reflexivity |].
  cbn [contains_slash trimStart_by]. intros H.
  destruct (f c); [| exact H].
  apply orb_false_elim in H as [_ Hs]. now apply IH.
Qed.

Lemma strip_trailing_quote_no_slash (s : string) :
  contains_slash s = false -> contains_slash (strip_trailing_quote s) = false.
Proof.
  induction s as [|c s IH]; [reflexivity |].
  cbn [contains_slash]. intros H. apply orb_false_elim in H as [Hc Hs].
  destruct s as [|d s].
  - cbn. destruct (is_quote c); cbn; rewrite ?Hc; reflexivity.
  - change (strip_trailing_quote (String c (String d s)))
      with (String c (strip_trailing_quote (String d s))).
    cbn [contains_slash]. now rewrite Hc, (IH Hs).
Qed.

Lemma strip_no_slash (x : string) :
  contains_slash x = false -> contains_slash (strip_quotes_and_whitespace x) = false.
Proof.
  intros H. unfold strip_quotes_and_whitespace, unquote, trim.
  apply strip_trailing_quote_no_slash.
  pose proof (trimEnd_by_no_slash is_whitespace _
                (trimStart_by_no_slash is_whitespace x H)) as Ht.
  destruct (trimEnd_by is_whitespace (trimStart_by is_whitespace x)) as [|c t];
    [reflexivity |].
  cbn [strip_leading_quote]. destruct (is_quote c); [| exact Ht].
  cbn [contains_slash] in Ht. now apply orb_false_elim in Ht as [_ Ht].
Qed.

Lemma collapse_backslashes_pair (c1 c2 : ascii) (t : string) :
  collapse_backslashes (String c1 (String c2 t))
  = if is_backslash c1 && is_backslash c2
    then String c1 (collapse_backslashes t)
    else String c1 (collapse_backslashes (String c2 t)).
Proof. reflexivity. Qed.

Lemma collapse_backslashes_no_slash (s : string) :
  contains_slash s = false -> contains_slash (collapse_backslashes s) = false.
Proof.
  assert (H : forall n s, String.length s <= n -> contains_slash s = false ->
                          contains_slash (collapse_backslashes s) = false).
  { intros n. induction n as [|n IH]; intros t Hn Ht.
    - destruct t; [reflexivity | cbn in Hn; lia].
    - destruct t as [|c1 [|c2 t]]; try exact Ht.
      cbn [contains_slash] in Ht.
      apply orb_false_elim in Ht as [H1 Ht]. apply orb_false_elim in Ht as [H2 Ht].
      cbn [String.length] in Hn. rewrite collapse_backslashes_pair.
      destruct (is_backslash c1 && is_backslash c2);
        cbn [contains_slash]; rewrite H1; cbn [orb]; apply IH;
        try (cbn [String.length]; lia); cbn [contains_slash]; rewrite ?H2; exact Ht. }
  intros Hs. exact (H (String.length s) s (le_n _) Hs).
Qed.

(** ** Drive paths *)

Lemma collapse_backslashes_keep (c : ascii) (s : string) :
  is_backslash c = false ->
  collapse_backslashes (String c s) = String c (collapse_backslashes s).
Proof. intros H. destruct s; cbn; [reflexivity | now rewrite H]. Qed.

Lemma collapse_backslashes_first (g : ascii -> bool) (s : string) :
  first_is g (collapse_backslashes s) = first_is g s.
Proof.
  destruct s as [|c1 [|c2 s]]; try reflexivity.
  cbn [collapse_backslashes]. destruct (is_backslash c1 && is_backslash c2); reflexivity.
Qed.

Section DrivePaths.

Variable up : ascii -> string.
Variable norm : string -> string.

Lemma strip_drive_form (c : ascii) (rest : string) :
  is_letter c = true ->
  strip_quotes_and_whitespace (String c (":" ++ rest))
  = String c (":" ++ strip_trailing_quote (trimEnd_by is_whitespace rest)).
Proof.
  intros Hc. destruct (letter_facts c Hc) as (_ & _ & Hq & Hw & _).
  unfold strip_quotes_and_whitespace, trim, unquote. cbn [append].
  cbn [trimStart_by]. rewrite Hw.
  rewrite (trimEnd_by_keep is_whitespace c) by exact Hw.
  rewrite (trimEnd_by_keep is_whitespace ":") by reflexivity.
  cbn [strip_leading_quote]. rewrite Hq.
  rewrite (strip_trailing_quote_keep c) by exact Hq.
  rewrite (strip_trailing_quote_keep ":") by reflexivity.
  reflexivity.
Qed.

Lemma convertToWindowsPath_drive (c : ascii) (rest : string) :
  is_letter c = true ->
  convertToWindowsPath up (String c (":" ++ rest))
  = String c (":" ++ replace_slashes rest).
Proof.
  intros Hc. destruct (letter_facts c Hc) as (Hs & _).
  cbn [append].
  assert (E1 : startsWith (String c (String ":" rest)) "/mnt/" = false).
  { cbn [startsWith]. fold (is_slash c). now rewrite Hs. }
  assert (E2 : matches_unix_drive (String c (String ":" rest)) = false).
  { destruct rest; cbn [matches_unix_drive]; rewrite ?Hs; reflexivity. }
  assert (E3 : matches_drive (String c (String ":" rest)) = true).
  { cbn [matches_drive]. now rewrite Hc. }
  unfold convertToWindowsPath. rewrite E1, E2, E3.
  cbn [replace_slashes]. now rewrite Hs.
Qed.

Lemma handed_drive_form (c : ascii) (rest : string) :
  is_letter c = true ->
  handed_to_normalize up (String c (":" ++ rest))
  = String c (":" ++ collapse_backslashes
                      (replace_slashes
                         (strip_trailing_quote (trimEnd_by is_whitespace rest)))).
Proof.
  intros Hc. destruct (letter_facts c Hc) as (_ & Hb & _).
  unfold handed_to_normalize.
  rewrite (strip_drive_form c rest Hc), (convertToWindowsPath_drive c _ Hc).
  unfold normalize_backslashes. cbn [append startsWith].
  fold (is_backslash c). rewrite Hb. cbn [andb].
  rewrite (collapse_backslashes_keep c) by exact Hb.
  rewrite (collapse_backslashes_keep ":") by reflexivity.
  reflexivity.
Qed.

Lemma isUnixPath_drive_form (c : ascii) (rest : string) :
  is_letter c = true ->
  isUnixPath (strip_quotes_and_whitespace (String c (":" ++ rest))) = false.
Proof.
  intros Hc. destruct (letter_facts c Hc) as (Hs & _).
  rewrite (strip_drive_form c rest Hc).
  unfold isUnixPath. cbn [startsWith]. fold (is_slash c). now rewrite Hs.
Qed.

End DrivePaths.

(** The string handed to [path.normalize] for a drive path has no
    slash, whatever the input has. *)
Lemma handed_drive_form_no_slash (up : ascii -> string) (c : ascii) (rest : string) :
  is_letter c = true ->
  contains_slash (handed_to_normalize up (String c (":" ++ rest))) = false.
Proof.
  intros Hc. rewrite (handed_drive_form up c rest Hc).
  destruct (letter_facts c Hc) as (Hs & _).
  cbn [append contains_slash]. rewrite Hs. cbn [orb]. change (is_slash ":") with false.
  cbn [orb]. apply collapse_backslashes_no_slash, replace_slashes_no_slash.
Qed.

(** The last stages on a drive path, once [path.normalize] has
    returned a drive path. *)
Lemma normalizePath_drive_form (up : ascii -> string) (norm : string -> string)
    (c : ascii) (rest : string) (d : ascii) (tail : string) :
  is_letter c = true ->
  is_letter d = true ->
  norm (handed_to_normalize up (String c (":" ++ rest))) = String d (":" ++ tail) ->
  normalizePath up norm (String c (":" ++ rest))
  = String (drive_upper d) (":" ++ replace_slashes tail).
Proof.
  intros Hc Hd Hn.
  rewrite (normalizePath_windows up norm _ (isUnixPath_drive_form c rest Hc)).
  rewrite Hn. rewrite (handed_drive_form up c rest Hc).
  destruct (letter_facts c Hc) as (_ & Hb & _).
  unfold restore_unc. cbn [append startsWith]. fold (is_backslash c).
  rewrite Hb. cbn [andb]. apply (finish_drive up d tail Hd).
Qed.

(** C7. On an input of the form letter, colon, rest,
    [convertToWindowsPath] turns the slashes into backslashes and
    leaves the letter as it is; [normalizePath] hands [path.normalize]
    a string with the same letter and upper-cases the drive letter of
    what comes back.  Where [path.normalize] is
    [path.posix.normalize], it returns that string as it is, and the
    result is the input with an upper-case drive letter, without the
    white space and the quote at its end, its slashes turned into
    backslashes and its doubled backslashes collapsed.  So [c:/foo]
    gives [c:\foo] with the first function and [C:\foo] with the
    second, [path.normalize] having nothing to change in [c:\foo]. *)
Theorem drive_form_slashes_and_case :
  forall (up : ascii -> string) (norm : string -> string) (c : ascii) (rest : string),
    is_letter c = true ->
    convertToWindowsPath up (String c (":" ++ rest))
    = String c (":" ++ replace_slashes rest)
    /\ (exists rest', handed_to_normalize up (String c (":" ++ rest))
                      = String c (":" ++ rest'))
    /\ (forall d tail,
           is_letter d = true ->
           norm (handed_to_normalize up (String c (":" ++ rest))) = String d (":" ++ tail) ->
           normalizePath up norm (String c (":" ++ rest))
           = String (drive_upper d) (":" ++ replace_slashes tail))
    /\ normalizePath up posix_normalize (String c (":" ++ rest))
       = String (drive_upper c)
           (":" ++ collapse_backslashes
                     (replace_slashes
                        (strip_trailing_quote (trimEnd_by is_whitespace rest))))
    /\ convertToWindowsPath up "c:/foo" = "c:\foo"
    /\ (norm "c:\foo" = "c:\foo" -> normalizePath up norm "c:/foo" = "C:\foo").
Proof.
  intros up norm c rest Hc.
  split; [| split; [| split; [| split; [| split]]]].
  - apply convertToWindowsPath_drive, Hc.
  - eexists. apply handed_drive_form, Hc.
  - intros d tail Hd Hn. now apply normalizePath_drive_form.
  - pose proof (handed_drive_form_no_slash up c rest Hc) as Hs.
    pose proof (handed_drive_form up c rest Hc) as Hh.
    rewrite (normalizePath_drive_form up posix_normalize c rest c
               (collapse_backslashes
                  (replace_slashes
                     (strip_trailing_quote (trimEnd_by is_whitespace rest)))) Hc Hc).
    + rewrite replace_slashes_id; [reflexivity |].
      apply collapse_backslashes_no_slash, replace_slashes_no_slash.
    + rewrite posix_normalize_no_slash; [exact Hh | | exact Hs].
      rewrite Hh. discriminate.
  - reflexivity.
  - intros Hn.
    apply (normalizePath_drive_form up norm "c"%char "/foo" "c"%char "\foo");
      try reflexivity.
    exact Hn.
Qed.

Lemma drive_form_slashes_and_case_witness :
  is_letter "c" = true
  /\ convertToWindowsPath toUpperCase_latin1 "c:/foo" = "c:\foo"
  /\ posix_normalize "c:\foo" = "c:\foo"
  /\ normalizePath toUpperCase_latin1 posix_normalize "c:/foo" = "C:\foo".
Proof.
  pose proof (drive_form_slashes_and_case toUpperCase_latin1 posix_normalize
                "c"%char "/foo" eq_refl) as (_ & _ & _ & _ & H1 & H2).
  split; [reflexivity |]. split; [exact H1 |]. split; [reflexivity |].
  exact (H2 eq_refl).
Defined.

(** ** UNC paths *)

Lemma leading_backslashes_first (s : string) :
  1 <= leading_backslashes s -> first_is is_backslash s = true.
Proof.
  destruct s as [|c s]; cbn; [lia |].
  destruct (is_backslash c); [reflexivity | lia].
Qed.

Lemma leading_backslashes_none (s : string) :
  first_is is_backslash s = false -> leading_backslashes s = 0.
Proof. destruct s as [|c s]; cbn; [reflexivity | now intros ->]. Qed.

Lemma leading_backslashes_two (s : string) :
  2 <= leading_backslashes s -> startsWith s "\\" = true.
Proof.
  destruct s as [|c0 [|c1 s]]; cbn [leading_backslashes startsWith].
  - lia.
  - destruct (is_backslash c0); lia.
  - fold (is_backslash c0) (is_backslash c1).
    destruct (is_backslash c0); [| lia].
    destruct (is_backslash c1); [reflexivity | lia].
Qed.

Lemma leading_backslashes_trimEnd_by (f : ascii -> bool) (s : string) :
  (forall c, is_backslash c = true -> f c = false) ->
  leading_backslashes (trimEnd_by f s) = leading_backslashes s.
Proof.
  intros Hf. induction s as [|c s IH]; [reflexivity |].
  destruct (is_backslash c) eqn:Ec.
  - rewrite trimEnd_by_keep by now apply Hf.
    cbn [leading_backslashes]. now rewrite Ec, IH.
  - cbn [trimEnd_by leading_backslashes]. rewrite Ec.
    destruct (trimEnd_by f s); [destruct (f c) |];
      cbn [leading_backslashes]; rewrite ?Ec; reflexivity.
Qed.

Lemma leading_backslashes_strip_trailing_quote (s : string) :
  leading_backslashes (strip_trailing_quote s) = leading_backslashes s.
Proof.
  induction s as [|c s IH]; [reflexivity |].
  destruct (is_backslash c) eqn:Ec.
  - destruct (backslash_facts c Ec) as (_ & Hq & _).
    rewrite strip_trailing_quote_keep by exact Hq.
    cbn [leading_backslashes]. now rewrite Ec, IH.
  - destruct s as [|d s].
    + cbn. destruct (is_quote c); cbn; rewrite ?Ec; reflexivity.
    + change (strip_trailing_quote (String c (String d s)))
        with (String c (strip_trailing_quote (String d s))).
      cbn [leading_backslashes]. now rewrite Ec.
Qed.

Lemma leading_backslashes_strip (x : string) :
  1 <= leading_backslashes x ->
  leading_backslashes (strip_quotes_and_whitespace x) = leading_backslashes x.
Proof.
  intros H. apply leading_backslashes_first in H.
  unfold strip_quotes_and_whitespace, unquote, trim.
  destruct x as [|c x]; [discriminate H |]. cbn [first_is] in H.
  destruct (backslash_facts c H) as (_ & Hq & Hw & _).
  cbn [trimStart_by]. rewrite Hw.
  rewrite (trimEnd_by_keep is_whitespace c) by exact Hw.
  cbn [strip_leading_quote]. rewrite Hq.
  rewrite leading_backslashes_strip_trailing_quote.
  rewrite <- (trimEnd_by_keep is_whitespace c) by exact Hw.
  apply leading_backslashes_trimEnd_by.
  intros d Hd. now destruct (backslash_facts d Hd) as (_ & _ & ? & _).
Qed.

Lemma replace_slashes_first_backslash (s : string) :
  first_is is_backslash (replace_slashes s)
  = first_is is_backslash s || first_is is_slash s.
Proof.
  destruct s as [|c s]; [reflexivity |]. cbn.
  destruct (is_slash c) eqn:E; [| now rewrite orb_false_r].
  now rewrite orb_true_r.
Qed.

Section Unc.

Variable up : ascii -> string.
Variable norm : string -> string.

Lemma convertToWindowsPath_backslash_first (p : string) :
  first_is is_backslash p = true -> convertToWindowsPath up p = p.
Proof.
  destruct p as [|c p]; [discriminate |]. cbn [first_is]. intros Hc.
  destruct (backslash_facts c Hc) as (Hs & _ & _ & Hl).
  apply convertToWindowsPath_passthrough.
  - cbn [startsWith]. fold (is_slash c). now rewrite Hs.
  - destruct p as [|c1 [|c2 p]]; cbn [matches_unix_drive]; rewrite ?Hs; reflexivity.
  - destruct p; cbn [matches_drive]; rewrite ?Hl; reflexivity.
Qed.

Lemma normalize_backslashes_unc (p : string) :
  startsWith p "\\" = true ->
  normalize_backslashes p
  = "\\" ++ collapse_backslashes (trimStart_by is_backslash p).
Proof.
  intros H. unfold normalize_backslashes, reduce_leading_backslashes.
  rewrite H. reflexivity.
Qed.

Lemma handed_unc (x : string) :
  2 <= leading_backslashes x ->
  handed_to_normalize up x
  = "\\" ++ collapse_backslashes
              (trimStart_by is_backslash (strip_quotes_and_whitespace x)).
Proof.
  intros H. unfold handed_to_normalize.
  assert (Hp : 2 <= leading_backslashes (strip_quotes_and_whitespace x))
    by (rewrite leading_backslashes_strip; lia).
  rewrite convertToWindowsPath_backslash_first
    by (apply leading_backslashes_first; lia).
  apply normalize_backslashes_unc, leading_backslashes_two, Hp.
Qed.

Lemma isUnixPath_unc (x : string) :
  1 <= leading_backslashes x ->
  isUnixPath (strip_quotes_and_whitespace x) = false.
Proof.
  intros H. rewrite <- leading_backslashes_strip in H by exact H.
  apply leading_backslashes_first in H.
  destruct (strip_quotes_and_whitespace x) as [|c p]; [reflexivity |].
  cbn [first_is] in H. destruct (backslash_facts c H) as (Hs & _).
  unfold isUnixPath. cbn [startsWith]. fold (is_slash c). now rewrite Hs.
Qed.

(** Lines 75-91 on a string handed over with two leading
    backslashes. *)
Lemma finish_restore_unc (h n : string) :
  startsWith h "\\" = true ->
  finish up (restore_unc h n)
  = replace_slashes (if startsWith n "\\" then n else "\" ++ n).
Proof.
  intros Hh. unfold restore_unc. rewrite Hh. cbn [andb].
  destruct (startsWith n "\\") eqn:En; cbn [negb]; unfold finish.
  - destruct n as [|c0 n]; [discriminate En |].
    cbn [startsWith] in En. apply andb_prop in En as [E0 _].
    fold (is_backslash c0) in E0.
    destruct (backslash_facts c0 E0) as (_ & _ & _ & Hl).
    destruct n; cbn [matches_drive]; rewrite ?Hl; reflexivity.
  - destruct n; reflexivity.
Qed.

End Unc.

Lemma handed_unc_no_slash (up : ascii -> string) (x : string) :
  2 <= leading_backslashes x ->
  contains_slash x = false ->
  contains_slash (handed_to_normalize up x) = false.
Proof.
  intros Hx Hs. rewrite (handed_unc up x Hx). cbn [append contains_slash].
  change (is_slash "\") with false. cbn [orb].
  apply collapse_backslashes_no_slash, trimStart_by_no_slash, strip_no_slash, Hs.
Qed.

Lemma startsWith_two_backslashes (s : string) :
  startsWith s "\\" = true ->
  exists t, s = "\\" ++ t.
Proof.
  destruct s as [|c0 [|c1 s]]; cbn [startsWith]; rewrite ?andb_false_r; try discriminate.
  intros H. apply andb_prop in H as [H0 H1]. apply andb_prop in H1 as [H1 _].
  apply Ascii.eqb_eq in H0, H1. subst. now exists s.
Qed.

Lemma startsWith_backslash_cons (s : string) :
  startsWith (String "\" s) "\\" = first_is is_backslash s.
Proof.
  destruct s as [|c s]; [reflexivity |].
  cbn. now rewrite andb_true_r.
Qed.

Lemma collapse_backslashes_keep_next (t : string) :
  first_is is_backslash t = false ->
  collapse_backslashes (String "\" t) = String "\" (collapse_backslashes t).
Proof.
  destruct t as [|c t]; [reflexivity |]. cbn [first_is]. intros H.
  rewrite collapse_backslashes_pair. now rewrite H, andb_false_r.
Qed.

Lemma collapse_backslashes_run (n : nat) (t : string) :
  first_is is_backslash t = false ->
  collapse_backslashes (backslashes n ++ t)
  = backslashes (Nat.div2 (S n)) ++ collapse_backslashes t
  /\ collapse_backslashes (backslashes (S n) ++ t)
     = backslashes (Nat.div2 (S (S n))) ++ collapse_backslashes t.
Proof.
  intros Ht. induction n as [|n [IH1 IH2]].
  - split; [reflexivity |].
    cbn [backslashes append Nat.div2].
    now apply collapse_backslashes_keep_next.
  - split; [exact IH2 |].
    change (backslashes (S (S n)) ++ t)
      with (String "\" (String "\" (backslashes n ++ t))).
    rewrite collapse_backslashes_pair. change (is_backslash "\") with true.
    cbn [andb]. rewrite IH1. reflexivity.
Qed.

Lemma leading_backslashes_run (k : nat) (s : string) :
  first_is is_backslash s = false ->
  leading_backslashes (backslashes k ++ s) = k
  /\ trimStart_by is_backslash (backslashes k ++ s) = s.
Proof.
  intros Hs. induction k as [|k [IH1 IH2]].
  - split; [now apply leading_backslashes_none |].
    destruct s as [|c s]; [reflexivity |]. cbn in Hs |- *. now rewrite Hs.
  - cbn [backslashes append leading_backslashes trimStart_by].
    change (is_backslash "\") with true. cbv iota. now rewrite IH1, IH2.
Qed.

Lemma leading_backslashes_replace_slashes (n : string) :
  first_is is_slash (trimStart_by is_backslash n) = false ->
  leading_backslashes (replace_slashes n) = leading_backslashes n.
Proof.
  induction n as [|c n IH]; [reflexivity |].
  cbn [trimStart_by replace_slashes leading_backslashes].
  destruct (is_backslash c) eqn:Ec.
  - destruct (backslash_facts c Ec) as (Hs & _). rewrite Hs, Ec.
    intros H. now rewrite IH.
  - cbn [first_is]. intros Hs. now rewrite Hs, Ec.
Qed.

(** Lines 57-91 on an input with two or more leading backslashes, when
    [path.normalize] returns a string that starts with a backslash:
    the case lines 74-77 are written for. *)
Lemma normalizePath_unc_result (up : ascii -> string) (norm : string -> string) (x : string) :
  2 <= leading_backslashes x ->
  normalizePath up norm x
  = replace_slashes
      (if startsWith (norm (handed_to_normalize up x)) "\\"
       then norm (handed_to_normalize up x)
       else "\" ++ norm (handed_to_normalize up x)).
Proof.
  intros Hx.
  rewrite (normalizePath_windows up norm x) by (apply isUnixPath_unc; lia).
  apply finish_restore_unc. rewrite (handed_unc up x Hx). reflexivity.
Qed.

Lemma handed_unc_two (up : ascii -> string) (x : string) :
  2 <= leading_backslashes x ->
  leading_backslashes (handed_to_normalize up x) = 2.
Proof.
  intros Hx. rewrite (handed_unc up x Hx). cbn. do 2 f_equal.
  apply leading_backslashes_none.
  rewrite collapse_backslashes_first. apply trimStart_by_first.
Qed.

(** The restored output has two leading backslashes when the output
    has one or two and neither a backslash nor a slash after them. *)
Lemma restored_two (n : string) :
  leading_backslashes n = 1 \/ leading_backslashes n = 2 ->
  first_is is_slash (trimStart_by is_backslash n) = false ->
  leading_backslashes
    (replace_slashes (if startsWith n "\\" then n else "\" ++ n)) = 2.
Proof.
  intros Hn Hs. destruct (startsWith n "\\") eqn:E.
  - rewrite (leading_backslashes_replace_slashes n Hs).
    destruct Hn as [Hn | Hn]; [| exact Hn].
    apply startsWith_two_backslashes in E as [t ->]. cbn in Hn. lia.
  - assert (H1 : leading_backslashes n = 1).
    { destruct Hn as [Hn | Hn]; [exact Hn |].
      rewrite (leading_backslashes_two n) in E by lia. discriminate E. }
    rewrite leading_backslashes_replace_slashes.
    + cbn. now rewrite H1.
    + exact Hs.
Qed.

(** C5 (as the code has it). On an input with two or more leading
    backslashes, [normalizePath] hands [path.normalize] a string with
    exactly two leading backslashes: the leading run is reduced to two
    and, after it, each pair of backslashes is collapsed to one, so a
    run of [n] becomes one of [(n + 1) / 2].  When [path.normalize]
    returns a string that starts with a backslash, the result is that
    string, with a backslash restored in front if it starts with one
    only, and with its slashes turned into backslashes; it starts with
    two backslashes.  It has exactly two when what [path.normalize]
    returns starts with one or two backslashes and neither a backslash
    nor a slash follows them, as it is with [path.posix.normalize] on
    every input without slash. *)
Theorem normalizePath_unc_leading_backslashes :
  forall (up : ascii -> string) (norm : string -> string) (x : string),
    2 <= leading_backslashes x ->
    leading_backslashes (strip_quotes_and_whitespace x) = leading_backslashes x
    /\ handed_to_normalize up x
       = "\\" ++ collapse_backslashes
                   (trimStart_by is_backslash (strip_quotes_and_whitespace x))
    /\ leading_backslashes (handed_to_normalize up x) = 2
    /\ (forall k c n t,
          x = backslashes k ++ String c (backslashes n ++ t) ->
          is_backslash c = false ->
          first_is is_backslash t = false ->
          strip_quotes_and_whitespace x = x ->
          handed_to_normalize up x
          = "\\" ++ String c (backslashes (Nat.div2 (S n)) ++ collapse_backslashes t))
    /\ (first_is is_backslash (norm (handed_to_normalize up x)) = true ->
        normalizePath up norm x
        = replace_slashes
            (if startsWith (norm (handed_to_normalize up x)) "\\"
             then norm (handed_to_normalize up x)
             else "\" ++ norm (handed_to_normalize up x))
        /\ startsWith (normalizePath up norm x) "\\" = true)
    /\ (leading_backslashes (norm (handed_to_normalize up x)) = 1
        \/ leading_backslashes (norm (handed_to_normalize up x)) = 2 ->
        first_is is_slash
          (trimStart_by is_backslash (norm (handed_to_normalize up x))) = false ->
        leading_backslashes (normalizePath up norm x) = 2)
    /\ (contains_slash x = false ->
        normalizePath up posix_normalize x = handed_to_normalize up x
        /\ leading_backslashes (normalizePath up posix_normalize x) = 2)
    /\ (norm "\\server\share" = "\\server\share" ->
        normalizePath up norm "\\\server\share" = "\\server\share"
        /\ normalizePath up norm "\\\\\server\\share" = "\\server\share").
Proof.
  intros up norm x Hx.
  pose proof (handed_unc up x Hx) as Hh.
  pose proof (handed_unc_two up x Hx) as H2.
  pose proof (normalizePath_unc_result up norm x Hx) as Hres.
  split; [apply leading_backslashes_strip; lia |].
  split; [exact Hh |].
  split; [exact H2 |].
  split; [| split; [| split; [| split]]].
  - intros k c n t Hshape Hc Ht Hstrip. rewrite Hh, Hstrip, Hshape.
    assert (Hf : first_is is_backslash (String c (backslashes n ++ t)) = false)
      by exact Hc.
    rewrite (proj2 (leading_backslashes_run k _ Hf)).
    rewrite (collapse_backslashes_keep c _ Hc).
    now rewrite (proj1 (collapse_backslashes_run n t Ht)).
  - intros Hn. split; [exact Hres |]. rewrite Hres.
    destruct (startsWith (norm (handed_to_normalize up x)) "\\") eqn:E.
    + apply startsWith_two_backslashes in E as [s ->]. reflexivity.
    + cbn [append replace_slashes]. change (is_slash "\") with false. cbv iota.
      rewrite startsWith_backslash_cons, replace_slashes_first_backslash, Hn.
      reflexivity.
  - intros Hn Hs. rewrite Hres. now apply restored_two.
  - intros Hs.
    pose proof (handed_unc_no_slash up x Hx Hs) as Hhs.
    assert (Hp : posix_normalize (handed_to_normalize up x) = handed_to_normalize up x).
    { apply posix_normalize_no_slash; [| exact Hhs]. rewrite Hh. discriminate. }
    assert (Hr : normalizePath up posix_normalize x = handed_to_normalize up x).
    { rewrite (normalizePath_unc_result up posix_normalize x Hx), Hp.
      rewrite (leading_backslashes_two _ (eq_ind_r (fun n => 2 <= n) (le_n 2) H2)).
      now apply replace_slashes_id. }
    split; [exact Hr | now rewrite Hr].
  - intros Hn. split.
    + rewrite (normalizePath_windows up norm "\\\server\share" eq_refl).
      change (handed_to_normalize up "\\\server\share") with "\\server\share".
      rewrite Hn. reflexivity.
    + rewrite (normalizePath_windows up norm "\\\\\server\\share" eq_refl).
      change (handed_to_normalize up "\\\\\server\\share") with "\\server\share".
      rewrite Hn. reflexivity.
Qed.

Lemma normalizePath_unc_leading_backslashes_witness :
  2 <= leading_backslashes "\\\\\server\\\\share\\x"
  /\ strip_quotes_and_whitespace "\\\\\server\\\\share\\x" = "\\\\\server\\\\share\\x"
  /\ handed_to_normalize toUpperCase_latin1 "\\\\\server\\\\share\\x"
     = "\\server\\share\x"
  /\ posix_normalize "\\server\share" = "\\server\share"
  /\ normalizePath toUpperCase_latin1 posix_normalize "\\\\\server\\share" = "\\server\share"
  /\ leading_backslashes
       (normalizePath toUpperCase_latin1 posix_normalize "\\\\\server\\\\share\\x") = 2.
Proof.
  assert (H : 2 <= leading_backslashes "\\\\\server\\\\share\\x") by (cbn; lia).
  pose proof (normalizePath_unc_leading_backslashes toUpperCase_latin1 posix_normalize
                "\\\\\server\\\\share\\x" H) as (_ & _ & _ & H4 & _ & _ & H7 & H8).
  split; [exact H |]. split; [reflexivity |].
  split; [exact (H4 5 "s"%char 0 "erver\\\\share\\x" eq_refl eq_refl eq_refl eq_refl) |].
  split; [reflexivity |].
  split; [exact (proj2 (H8 eq_refl)) |].
  exact (proj2 (H7 eq_refl)).
Defined.

(** C5 as the specification has it fails where [path.normalize] is
    [path.posix.normalize]: a slash right after the two backslashes
    stays through [path.normalize] and becomes a third backslash; and
    when a [..] segment takes the segment with the two backslashes
    away, what [path.normalize] returns starts with no backslash and
    the result with one. *)
Lemma normalizePath_unc_posix_counterexample :
  leading_backslashes "\\/a" = 2
  /\ posix_normalize "\\/a" = "\\/a"
  /\ normalizePath toUpperCase_latin1 posix_normalize "\\/a" = "\\\a"
  /\ leading_backslashes (normalizePath toUpperCase_latin1 posix_normalize "\\/a") = 3
  /\ leading_backslashes "\\a/../b" = 2
  /\ posix_normalize "\\a/../b" = "b"
  /\ leading_backslashes (normalizePath toUpperCase_latin1 posix_normalize "\\a/../b") = 1.
Proof. repeat split. Qed.

(** ** Idempotence *)

Lemma zlength_zero (s : string) : (zlength s =? 0)%Z = false -> s <> EmptyString.
Proof. intros H ->. discriminate H. Qed.

Lemma append_nonempty_l (a b : string) : a <> EmptyString -> a ++ b <> EmptyString.
Proof. destruct a; [intros H; now elim H | discriminate]. Qed.

(** [path.posix.normalize] never returns the empty string. *)
Lemma posix_normalize_nonempty (s : string) : posix_normalize s <> EmptyString.
Proof.
  unfold posix_normalize.
  destruct (zlength s =? 0)%Z; [discriminate |].
  destruct (zlength (normalizeString s (negb (is_slash (charCodeAt s 0)))) =? 0)%Z eqn:E.
  - destruct (is_slash (charCodeAt s 0)); [discriminate |].
    destruct (is_slash (charCodeAt s (zlength s - 1))); discriminate.
  - apply zlength_zero in E.
    destruct (is_slash (charCodeAt s 0)); [discriminate |].
    destruct (is_slash (charCodeAt s (zlength s - 1))); [| exact E].
    now apply append_nonempty_l.
Qed.

Lemma replace_slashes_nonempty (s : string) :
  s <> EmptyString -> replace_slashes s <> EmptyString.
Proof. destruct s; [intros H; now elim H | discriminate]. Qed.

Lemma finish_nonempty (up : ascii -> string) (n : string) :
  n <> EmptyString -> finish up n <> EmptyString.
Proof.
  intros Hn. unfold finish.
  destruct (matches_drive n); [| now apply replace_slashes_nonempty].
  destruct (matches_lower_drive (replace_slashes n)) eqn:E;
    [| now apply replace_slashes_nonempty].
  destruct (replace_slashes n) as [|c0 [|c1 t]]; try discriminate E.
  cbn [slice_from].
  destruct (toUpperCase up (charAt (String c0 (String c1 t)) 0)); discriminate.
Qed.

Lemma restore_unc_nonempty (h n : string) :
  n <> EmptyString -> restore_unc h n <> EmptyString.
Proof.
  intros Hn. unfold restore_unc.
  destruct (startsWith h "\\" && negb (startsWith n "\\")); [discriminate | exact Hn].
Qed.

(** Where [path.normalize] is [path.posix.normalize], the result of
    the branch that is not the Unix one comes back unchanged from
    [path.normalize] and from the restoration of lines 75-77. *)
Lemma posix_windows_result_stable (up : ascii -> string) (x : string) :
  isUnixPath (strip_quotes_and_whitespace x) = false ->
  restore_unc (normalizePath up posix_normalize x)
    (posix_normalize (normalizePath up posix_normalize x))
  = normalizePath up posix_normalize x.
Proof.
  intros E.
  destruct (windows_result_facts up posix_normalize x E) as (Hs & _).
  rewrite posix_normalize_no_slash; [apply restore_unc_same | | exact Hs].
  rewrite (normalizePath_windows up posix_normalize x E).
  apply finish_nonempty, restore_unc_nonempty, posix_normalize_nonempty.
Qed.

(** A second pass on a result of the branch that is not the Unix one. *)
Lemma second_pass_windows (up : ascii -> string) (norm : string -> string) (x : string) :
  isUnixPath (strip_quotes_and_whitespace x) = false ->
  strip_quotes_and_whitespace (normalizePath up norm x) = normalizePath up norm x ->
  normalize_backslashes (normalizePath up norm x) = normalizePath up norm x ->
  restore_unc (normalizePath up norm x) (norm (normalizePath up norm x))
  = normalizePath up norm x ->
  normalizePath up norm (normalizePath up norm x) = normalizePath up norm x.
Proof.
  intros E Hstrip Hb Hn.
  destruct (windows_result_facts up norm x E) as (Hs & Hl).
  unfold normalizePath at 1. rewrite Hstrip.
  assert (Hu : isUnixPath (normalizePath up norm x) = false).
  { unfold isUnixPath. now rewrite (startsWith_slash_contains _ Hs). }
  rewrite Hu, (convertToWindowsPath_no_slash up _ Hs), Hb, Hn.
  now apply finish_id.
Qed.

Lemma second_pass_unix (up : ascii -> string) (norm : string -> string) (x : string) :
  isUnixPath (strip_quotes_and_whitespace x) = true ->
  strip_quotes_and_whitespace (normalizePath up norm x) = normalizePath up norm x ->
  isUnixPath (normalizePath up norm x) = true ->
  normalizePath up norm (normalizePath up norm x) = normalizePath up norm x.
Proof.
  intros E Hstrip Hunix.
  destruct (normalizePath_unix up norm x E) as (Hr & _).
  unfold normalizePath at 1. rewrite Hstrip, Hunix.
  rewrite Hr. apply unix_form_stable.
Qed.

(** C1 (as the code has it). A second [normalizePath] changes nothing
    when the first result is left alone by the trimming and unquoting
    stage and, if it came from the Unix branch, is a Unix path again,
    or, if it came from the other branch, is left alone by the collapse
    of the backslashes and comes back unchanged from [path.normalize]
    followed by the restoration of a leading backslash.  Where
    [path.normalize] is [path.posix.normalize] the last condition
    holds of every result, and the others are enough. *)
Theorem normalizePath_idempotent_on_stable_results :
  forall (up : ascii -> string) (norm : string -> string) (x : string),
    (strip_quotes_and_whitespace (normalizePath up norm x) = normalizePath up norm x ->
     (isUnixPath (strip_quotes_and_whitespace x) = true ->
      isUnixPath (normalizePath up norm x) = true) ->
     (isUnixPath (strip_quotes_and_whitespace x) = false ->
      normalize_backslashes (normalizePath up norm x) = normalizePath up norm x
      /\ restore_unc (normalizePath up norm x) (norm (normalizePath up norm x))
         = normalizePath up norm x) ->
     normalizePath up norm (normalizePath up norm x) = normalizePath up norm x)
    /\ (strip_quotes_and_whitespace (normalizePath up posix_normalize x)
        = normalizePath up posix_normalize x ->
        (isUnixPath (strip_quotes_and_whitespace x) = true ->
         isUnixPath (normalizePath up posix_normalize x) = true) ->
        (isUnixPath (strip_quotes_and_whitespace x) = false ->
         normalize_backslashes (normalizePath up posix_normalize x)
         = normalizePath up posix_normalize x) ->
        normalizePath up posix_normalize (normalizePath up posix_normalize x)
        = normalizePath up posix_normalize x).
Proof.
  intros up norm x. split.
  - intros Hstrip Hunix Hwin.
    destruct (isUnixPath (strip_quotes_and_whitespace x)) eqn:E.
    + apply second_pass_unix; auto.
    + destruct (Hwin eq_refl) as (Hb & Hn). now apply second_pass_windows.
  - intros Hstrip Hunix Hwin.
    destruct (isUnixPath (strip_quotes_and_whitespace x)) eqn:E.
    + apply second_pass_unix; auto.
    + apply second_pass_windows; auto.
      now apply posix_windows_result_stable.
Qed.

Lemma normalizePath_idempotent_on_stable_results_witness :
  normalizePath toUpperCase_latin1 posix_normalize "/mnt/c/Users//x" = "C:\Users\x"
  /\ strip_quotes_and_whitespace "C:\Users\x" = "C:\Users\x"
  /\ isUnixPath (strip_quotes_and_whitespace "/mnt/c/Users//x") = false
  /\ normalize_backslashes "C:\Users\x" = "C:\Users\x"
  /\ restore_unc "C:\Users\x" (posix_normalize "C:\Users\x") = "C:\Users\x"
  /\ normalizePath toUpperCase_latin1 posix_normalize
       (normalizePath toUpperCase_latin1 posix_normalize "/mnt/c/Users//x")
     = normalizePath toUpperCase_latin1 posix_normalize "/mnt/c/Users//x"
  /\ normalizePath toUpperCase_latin1 posix_normalize
       (normalizePath toUpperCase_latin1 posix_normalize " //usr//local/ ")
     = normalizePath toUpperCase_latin1 posix_normalize " //usr//local/ ".
Proof.
  do 5 (split; [reflexivity |]).
  split.
  - apply (proj1 (normalizePath_idempotent_on_stable_results toUpperCase_latin1
                    posix_normalize "/mnt/c/Users//x")).
    + reflexivity.
    + intros H. discriminate H.
    + intros _. split; reflexivity.
  - apply (proj2 (normalizePath_idempotent_on_stable_results toUpperCase_latin1
                    posix_normalize " //usr//local/ ")).
    + reflexivity.
    + intros _. reflexivity.
    + intros H. discriminate H.
Defined.

(** C1 as the specification has it fails on a Unix path that ends in
    two single quotes: each pass removes one of them.  It fails as well
    on a result of the Unix branch that reads as a drive path, and,
    with [path.posix.normalize], on a result in which the slashes
    turned into backslashes make a new pair of backslashes. *)
Lemma normalizePath_not_idempotent_counterexample :
  normalizePath toUpperCase_latin1 posix_normalize "/a''" = "/a'"
  /\ normalizePath toUpperCase_latin1 posix_normalize "/a'" = "/a"
  /\ normalizePath toUpperCase_latin1 posix_normalize
       (normalizePath toUpperCase_latin1 posix_normalize "/a''")
     <> normalizePath toUpperCase_latin1 posix_normalize "/a''"
  /\ normalizePath toUpperCase_latin1 posix_normalize "//c/foo" = "/c/foo"
  /\ normalizePath toUpperCase_latin1 posix_normalize "/c/foo" = "C:\foo"
  /\ normalizePath toUpperCase_latin1 posix_normalize "a/\/b" = "a\\\b"
  /\ normalizePath toUpperCase_latin1 posix_normalize "a\\\b" = "a\\b".
Proof.
  split; [reflexivity |]. split; [reflexivity |]. split; [discriminate |].
  repeat split.
Qed.

(** ** URIs *)

Section UriProperties.

Variable other : Type.
Variable URL_pathname : string -> outcome string.
Variable decodeURIComponent : string -> outcome string.
Variable platform_win32 : bool.

Lemma try_catch_returns {A : Type} (body handler : outcome A) :
  (exists a, handler = Returns a) -> exists a, try_catch body handler = Returns a.
Proof. intros [a Ha]. destruct body as [b | e]; cbn; eauto. Qed.

Lemma fileUriToPath_total (uri : value other) :
  exists v, fileUriToPath URL_pathname decodeURIComponent platform_win32 uri = Returns v.
Proof.
  unfold fileUriToPath. apply try_catch_returns, try_catch_returns. eauto.
Qed.

Lemma fileUriToPath_throwing_body (s : string) :
  (exists e, fileUriToPath_body URL_pathname decodeURIComponent platform_win32
               (@VString other s) = Throws e) ->
  fileUriToPath URL_pathname decodeURIComponent platform_win32 (@VString other s)
  = Returns (VString (fallback_result decodeURIComponent s)).
Proof.
  intros [e He]. unfold fileUriToPath. rewrite He. cbn [try_catch].
  unfold fileUriToPath_fallback, fallback_result. cbn [as_string bind].
  destruct (decodeURIComponent (strip_file_scheme s)); reflexivity.
Qed.

Lemma startsWith_file_not_falsy (s : string) :
  startsWith s "file:" = true -> falsy_or_not_string (@VString other s) = false.
Proof. destruct s; [discriminate | reflexivity]. Qed.

End UriProperties.

Lemma startsWith_app (p pre : string) :
  startsWith p pre = true -> exists t, p = pre ++ t.
Proof.
  revert p. induction pre as [|a pre IH]; intros p H.
  - now exists p.
  - destruct p as [|b p]; [discriminate H |].
    cbn [startsWith] in H. apply andb_prop in H as [Hb Hp].
    apply Ascii.eqb_eq in Hb. subst b.
    destruct (IH p Hp) as [t ->]. now exists t.
Qed.

Lemma strip_file_scheme_prefix (rest : string) :
  strip_file_scheme ("file://" ++ rest) = rest.
Proof. reflexivity. Qed.

Lemma strip_file_scheme_any_case (c0 c1 c2 c3 : ascii) (rest : string) :
  eqb_ci c0 "f" = true -> eqb_ci c1 "i" = true ->
  eqb_ci c2 "l" = true -> eqb_ci c3 "e" = true ->
  strip_file_scheme (String c0 (String c1 (String c2 (String c3 ("://" ++ rest))))) = rest.
Proof.
  intros H0 H1 H2 H3. cbn [append strip_file_scheme]. now rewrite H0, H1, H2, H3.
Qed.

Lemma strip_file_scheme_no_slashes (s : string) :
  startsWith s "file:" = true -> startsWith s "file://" = false ->
  strip_file_scheme s = s.
Proof.
  intros H1 H2. destruct (startsWith_app s "file:" H1) as [t ->].
  destruct t as [|c5 [|c6 t]]; try reflexivity.
  cbn [append strip_file_scheme]. cbn in H2. rewrite andb_true_r in H2.
  fold (is_slash c5) (is_slash c6) in H2.
  change (eqb_ci "f" "f") with true. change (eqb_ci "i" "i") with true.
  change (eqb_ci "l" "l") with true. change (eqb_ci "e" "e") with true.
  change (is_colon ":") with true. cbn [andb]. now rewrite H2.
Qed.

(** C8. [fileUriToPath] returns on every input, and a string on every
    string.  A value that is falsy or not a string and a string that
    does not start with [file:] come back as they are.  When the URI
    does not parse, or its path does not decode, the result is the
    input without a leading [file://] (in any case of the letters),
    percent-decoded, and the input itself when that does not decode
    either: of [file://rest] the fall-back decodes [rest], and of a
    URI with no two slashes after [file:] it decodes the whole. *)
Theorem fileUriToPath_never_throws :
  forall (other : Type) (URL_pathname decodeURIComponent : string -> outcome string)
         (platform_win32 : bool) (uri : value other),
    (exists v, fileUriToPath URL_pathname decodeURIComponent platform_win32 uri = Returns v)
    /\ (forall s, uri = VString s ->
          exists s', fileUriToPath URL_pathname decodeURIComponent platform_win32 uri
                     = Returns (VString s'))
    /\ (falsy_or_not_string uri = true ->
        fileUriToPath URL_pathname decodeURIComponent platform_win32 uri = Returns uri)
    /\ (forall s, uri = VString s -> startsWith s "file:" = false ->
          fileUriToPath URL_pathname decodeURIComponent platform_win32 uri = Returns uri)
    /\ (forall s e, uri = VString s -> startsWith s "file:" = true ->
          URL_pathname s = Throws e ->
          fileUriToPath URL_pathname decodeURIComponent platform_win32 uri
          = Returns (VString (fallback_result decodeURIComponent s)))
    /\ (forall s pathname e, uri = VString s -> startsWith s "file:" = true ->
          URL_pathname s = Returns pathname ->
          decodeURIComponent pathname = Throws e ->
          fileUriToPath URL_pathname decodeURIComponent platform_win32 uri
          = Returns (VString (fallback_result decodeURIComponent s)))
    /\ (forall s, fallback_result decodeURIComponent s = s
                  \/ decodeURIComponent (strip_file_scheme s)
                     = Returns (fallback_result decodeURIComponent s))
    /\ (forall rest e, uri = VString ("file://" ++ rest) ->
          URL_pathname ("file://" ++ rest) = Throws e ->
          fileUriToPath URL_pathname decodeURIComponent platform_win32 uri
          = Returns (VString match decodeURIComponent rest with
                             | Returns decoded => decoded
                             | Throws _ => "file://" ++ rest
                             end))
    /\ (forall s e, uri = VString s -> startsWith s "file:" = true ->
          startsWith s "file://" = false ->
          URL_pathname s = Throws e ->
          fileUriToPath URL_pathname decodeURIComponent platform_win32 uri
          = Returns (VString match decodeURIComponent s with
                             | Returns decoded => decoded
                             | Throws _ => s
                             end))
    /\ (forall c0 c1 c2 c3 rest,
          eqb_ci c0 "f" = true -> eqb_ci c1 "i" = true ->
          eqb_ci c2 "l" = true -> eqb_ci c3 "e" = true ->
          fallback_result decodeURIComponent
            (String c0 (String c1 (String c2 (String c3 ("://" ++ rest)))))
          = match decodeURIComponent rest with
            | Returns decoded => decoded
            | Throws _ => String c0 (String c1 (String c2 (String c3 ("://" ++ rest))))
            end).
Proof.
  intros other URL_pathname decodeURIComponent platform_win32 uri.
  assert (Hfb : forall s e, startsWith s "file:" = true -> URL_pathname s = Throws e ->
            fileUriToPath URL_pathname decodeURIComponent platform_win32 (@VString other s)
            = Returns (VString (fallback_result decodeURIComponent s))).
  { intros s e H He. apply fileUriToPath_throwing_body. exists e.
    unfold fileUriToPath_body.
    rewrite (startsWith_file_not_falsy other s H). cbn [as_string bind].
    rewrite H, He. reflexivity. }
  split; [apply fileUriToPath_total |].
  split.
  { intros s ->. unfold fileUriToPath, fileUriToPath_body, fileUriToPath_fallback.
    cbn [as_string bind].
    destruct (falsy_or_not_string (VString s)); [cbn; eauto |].
    destruct (negb (startsWith s "file:")); [cbn; eauto |].
    destruct (URL_pathname s) as [pathname | e]; cbn [bind try_catch].
    - destruct (decodeURIComponent pathname) as [p | e]; cbn [bind try_catch]; [eauto |].
      destruct (decodeURIComponent (strip_file_scheme s)); cbn; eauto.
    - destruct (decodeURIComponent (strip_file_scheme s)); cbn; eauto. }
  split.
  { intros H. unfold fileUriToPath, fileUriToPath_body. now rewrite H. }
  split.
  { intros s -> H. unfold fileUriToPath, fileUriToPath_body. cbn [as_string bind].
    rewrite H. destruct (falsy_or_not_string (VString s)); reflexivity. }
  split.
  { intros s e -> H He. now apply (Hfb s e). }
  split.
  { intros s pathname e -> H Hp He. apply fileUriToPath_throwing_body. exists e.
    unfold fileUriToPath_body.
    rewrite (startsWith_file_not_falsy other s H). cbn [as_string bind].
    rewrite H, Hp. cbn [negb bind]. rewrite He. reflexivity. }
  split.
  { intros s. unfold fallback_result.
    destruct (decodeURIComponent (strip_file_scheme s)); [right | left]; reflexivity. }
  split.
  { intros rest e -> He. rewrite (Hfb ("file://" ++ rest) e eq_refl He).
    unfold fallback_result. now rewrite strip_file_scheme_prefix. }
  split.
  { intros s e -> H1 H2 He. rewrite (Hfb s e H1 He).
    unfold fallback_result. now rewrite (strip_file_scheme_no_slashes s H1 H2). }
  intros c0 c1 c2 c3 rest H0 H1 H2 H3. unfold fallback_result.
  now rewrite (strip_file_scheme_any_case c0 c1 c2 c3 rest H0 H1 H2 H3).
Qed.

Lemma fileUriToPath_never_throws_witness :
  URL_pathname_rejecting "file://%2Fhome%2Fuser" = Throws TypeError
  /\ decodeURIComponent_ascii "%2Fhome%2Fuser" = Returns "/home/user"
  /\ fileUriToPath URL_pathname_rejecting decodeURIComponent_ascii false
       (@VString unit "file://%2Fhome%2Fuser")
     = Returns (VString "/home/user")
  /\ decodeURIComponent_ascii "%zz" = Throws URIError
  /\ fileUriToPath URL_pathname_rejecting decodeURIComponent_ascii false
       (@VString unit "file://%zz")
     = Returns (VString "file://%zz")
  /\ fileUriToPath URL_pathname_rejecting decodeURIComponent_ascii false
       (@VString unit "file:%2Ftmp")
     = Returns (VString "file:/tmp").
Proof.
  split; [reflexivity |]. split; [reflexivity |].
  split.
  { exact (proj1 (proj2 (proj2 (proj2 (proj2 (proj2 (proj2 (proj2
             (fileUriToPath_never_throws unit URL_pathname_rejecting
                decodeURIComponent_ascii false (VString "file://%2Fhome%2Fuser")))))))))
           "%2Fhome%2Fuser" TypeError eq_refl eq_refl). }
  split; [reflexivity |].
  split.
  { exact (proj1 (proj2 (proj2 (proj2 (proj2 (proj2 (proj2 (proj2
             (fileUriToPath_never_throws unit URL_pathname_rejecting
                decodeURIComponent_ascii false (VString "file://%zz")))))))))
           "%zz" TypeError eq_refl eq_refl). }
  exact (proj1 (proj2 (proj2 (proj2 (proj2 (proj2 (proj2 (proj2 (proj2
           (fileUriToPath_never_throws unit URL_pathname_rejecting
              decodeURIComponent_ascii false (VString "file:%2Ftmp"))))))))))
         "file:%2Ftmp" TypeError eq_refl eq_refl eq_refl eq_refl).
Defined.

(** The two steps of the fall-back on a host whose [URL] rejects the
    input: an escape that decodes, and one that does not. *)
Example fileUriToPath_fallback_steps :
  fileUriToPath URL_pathname_rejecting decodeURIComponent_ascii false
    (@VString unit "FILE://%2Fhome")
  = Returns (VString "FILE://%2Fhome")
  /\ fileUriToPath URL_pathname_rejecting decodeURIComponent_ascii false
       (@VString unit "file://%2Fhome%2Fuser")
     = Returns (VString "/home/user")
  /\ fileUriToPath URL_pathname_rejecting decodeURIComponent_ascii false
       (@VString unit "file://%zz")
     = Returns (VString "file://%zz")
  /\ strip_file_scheme "FiLe:///tmp" = "/tmp".
Proof. repeat split. Qed.

(** C9. On a string that does not start with [file:],
    [decodePossibleFileUri] returns the percent-decoding of the input
    when the input has a [%] followed by two hexadecimal digits and
    decodes, the input itself when it has one and does not decode, and
    the input itself when it has none; it never throws.  So
    [%2Fhome%2Fuser] gives [/home/user]. *)
Theorem decodePossibleFileUri_percent :
  forall (other : Type) (URL_pathname decodeURIComponent : string -> outcome string)
         (platform_win32 : bool) (s : string),
    startsWith s "file:" = false ->
    (has_percent_escape s = true ->
     decodePossibleFileUri URL_pathname decodeURIComponent platform_win32 (@VString other s)
     = Returns (VString match decodeURIComponent s with
                        | Returns decoded => decoded
                        | Throws _ => s
                        end))
    /\ (has_percent_escape s = false ->
        decodePossibleFileUri URL_pathname decodeURIComponent platform_win32 (@VString other s)
        = Returns (VString s))
    /\ (exists s',
          decodePossibleFileUri URL_pathname decodeURIComponent platform_win32
            (@VString other s) = Returns (VString s'))
    /\ (decodeURIComponent "%2Fhome%2Fuser" = Returns "/home/user" ->
        decodePossibleFileUri URL_pathname decodeURIComponent platform_win32
          (@VString other "%2Fhome%2Fuser") = Returns (VString "/home/user")).
Proof.
  intros other URL_pathname decodeURIComponent platform_win32 s Hs.
  unfold decodePossibleFileUri. rewrite Hs.
  split; [| split; [| split]].
  - intros ->. destruct (decodeURIComponent s); reflexivity.
  - intros ->. reflexivity.
  - destruct (has_percent_escape s); [| eauto].
    destruct (decodeURIComponent s); cbn; eauto.
  - intros H. cbn. rewrite H. reflexivity.
Qed.

Lemma decodePossibleFileUri_percent_witness :
  startsWith "%2Fhome%2Fuser" "file:" = false
  /\ has_percent_escape "%2Fhome%2Fuser" = true
  /\ decodeURIComponent_ascii "%2Fhome%2Fuser" = Returns "/home/user"
  /\ decodePossibleFileUri URL_pathname_rejecting decodeURIComponent_ascii false
       (@VString unit "%2Fhome%2Fuser") = Returns (VString "/home/user").
Proof.
  pose proof (decodePossibleFileUri_percent unit URL_pathname_rejecting
                decodeURIComponent_ascii false "%2Fhome%2Fuser" eq_refl)
    as (_ & _ & _ & H).
  split; [reflexivity |]. split; [reflexivity |]. split; [reflexivity |].
  exact (H eq_refl).
Defined.

(** * Further properties *)

(** ** White space and quotes around the input *)

Section Padding.

Variable f : ascii -> bool.

Lemma trimStart_by_all (a : string) : all_in f a = true -> trimStart_by f a = EmptyString.
Proof.
  induction a as [|c a IH]; [reflexivity |].
  cbn [all_in trimStart_by]. intros H. apply andb_prop in H as [Hc Ha].
  rewrite Hc. now apply IH.
Qed.

Lemma trimStart_by_app_all (a s : string) :
  all_in f a = true -> trimStart_by f (a ++ s) = trimStart_by f s.
Proof.
  induction a as [|c a IH]; [reflexivity |].
  cbn [all_in append trimStart_by]. intros H. apply andb_prop in H as [Hc Ha].
  rewrite Hc. now apply IH.
Qed.

Lemma trimEnd_by_all (b : string) : all_in f b = true -> trimEnd_by f b = EmptyString.
Proof.
  induction b as [|c b IH]; [reflexivity |].
  cbn [all_in trimEnd_by]. intros H. apply andb_prop in H as [Hc Hb].
  now rewrite (IH Hb), Hc.
Qed.

Lemma trimEnd_by_app_all (s b : string) :
  all_in f b = true -> trimEnd_by f (s ++ b) = trimEnd_by f s.
Proof.
  intros Hb. induction s as [|c s IH].
  - now apply trimEnd_by_all.
  - cbn [append trimEnd_by]. now rewrite IH.
Qed.

Lemma trim_by_app_all (x b : string) :
  all_in f b = true ->
  trimEnd_by f (trimStart_by f (x ++ b)) = trimEnd_by f (trimStart_by f x).
Proof.
  intros Hb. induction x as [|c x IH].
  - cbn [append trimStart_by]. now rewrite (trimStart_by_all b Hb).
  - cbn [append trimStart_by]. destruct (f c); [exact IH |].
    change (String c (x ++ b)) with (String c x ++ b).
    now apply trimEnd_by_app_all.
Qed.

End Padding.

Lemma trim_padding (a x b : string) :
  all_in is_whitespace a = true -> all_in is_whitespace b = true ->
  trim (a ++ x ++ b) = trim x.
Proof.
  intros Ha Hb. unfold trim.
  rewrite (trimStart_by_app_all is_whitespace a _ Ha).
  now apply trim_by_app_all.
Qed.

(** X1. White space before and after the input does not count: the
    input with any run of white space put in front and any run put
    behind normalizes to the same path. *)
Theorem normalizePath_ignores_surrounding_whitespace :
  forall (up : ascii -> string) (norm : string -> string) (a x b : string),
    all_in is_whitespace a = true ->
    all_in is_whitespace b = true ->
    normalizePath up norm (a ++ x ++ b) = normalizePath up norm x.
Proof.
  intros up norm a x b Ha Hb. unfold normalizePath, strip_quotes_and_whitespace.
  now rewrite (trim_padding a x b Ha Hb).
Qed.

Lemma normalizePath_ignores_surrounding_whitespace_witness :
  all_in is_whitespace "  " = true
  /\ all_in is_whitespace (String (ascii_of_nat 9) (String (ascii_of_nat 10) " ")) = true
  /\ normalizePath toUpperCase_latin1 posix_normalize
       ("  " ++ "c:/a b/x" ++ String (ascii_of_nat 9) (String (ascii_of_nat 10) " "))
     = "C:\a b\x"
  /\ normalizePath toUpperCase_latin1 posix_normalize
       ("  " ++ "c:/a b/x" ++ String (ascii_of_nat 9) (String (ascii_of_nat 10) " "))
     = normalizePath toUpperCase_latin1 posix_normalize "c:/a b/x".
Proof.
  split; [reflexivity |]. split; [reflexivity |]. split; [reflexivity |].
  exact (normalizePath_ignores_surrounding_whitespace toUpperCase_latin1 posix_normalize
           "  " "c:/a b/x" (String (ascii_of_nat 9) (String (ascii_of_nat 10) " "))
           eq_refl eq_refl).
Defined.

(** X2. An input of white space only, the empty input included, is
    neither a Unix path nor converted: [path.normalize] is handed the
    empty string, and where it is [path.posix.normalize] the result is
    the single dot. *)
Theorem normalizePath_blank_input :
  forall (up : ascii -> string) (norm : string -> string) (x : string),
    all_in is_whitespace x = true ->
    handed_to_normalize up x = EmptyString
    /\ normalizePath up norm x = finish up (norm EmptyString)
    /\ normalizePath up posix_normalize x = ".".
Proof.
  intros up norm x Hx.
  assert (Hs : strip_quotes_and_whitespace x = EmptyString).
  { unfold strip_quotes_and_whitespace, trim.
    now rewrite (trimStart_by_all is_whitespace x Hx). }
  assert (Hh : handed_to_normalize up x = EmptyString).
  { unfold handed_to_normalize. now rewrite Hs. }
  assert (Hn : forall n, normalizePath up n x = finish up (n EmptyString)).
  { intros n. rewrite (normalizePath_windows up n x) by now rewrite Hs.
    now rewrite Hh. }
  split; [exact Hh |]. split; [apply Hn |]. now rewrite Hn.
Qed.

Lemma normalizePath_blank_input_witness :
  all_in is_whitespace "   " = true
  /\ normalizePath toUpperCase_latin1 posix_normalize "   " = ".".
Proof.
  split; [reflexivity |].
  exact (proj2 (proj2 (normalizePath_blank_input toUpperCase_latin1 posix_normalize
                         "   " eq_refl))).
Defined.

Lemma last_is_app_unit (f : ascii -> bool) (s : string) (c : ascii) :
  last_is f (s ++ String c EmptyString) = f c.
Proof.
  induction s as [|d s IH]; [reflexivity |].
  change (String d s ++ String c EmptyString) with (String d (s ++ String c EmptyString)).
  cbn [last_is]. rewrite IH. destruct s; reflexivity.
Qed.

Lemma quote_not_whitespace (q : ascii) : is_quote q = true -> is_whitespace q = false.
Proof. ascii_cases q. Qed.

Lemma strip_quoted (q q' : ascii) (x : string) :
  is_quote q = true -> is_quote q' = true ->
  strip_quotes_and_whitespace (String q (x ++ String q' EmptyString)) = x.
Proof.
  intros Hq Hq'. unfold strip_quotes_and_whitespace, trim, unquote.
  cbn [trimStart_by]. rewrite (quote_not_whitespace q Hq).
  rewrite trimEnd_by_id.
  - cbn [strip_leading_quote]. rewrite Hq. now apply strip_trailing_quote_app.
  - change (String q (x ++ String q' EmptyString))
      with (String q x ++ String q' EmptyString).
    rewrite last_is_app_unit. now apply quote_not_whitespace.
Qed.

(** X3. A path between two quotes, of the same kind or not, normalizes
    as the path itself does, provided the path has no white space or
    quote of its own at its ends. *)
Theorem normalizePath_quoted :
  forall (up : ascii -> string) (norm : string -> string) (q q' : ascii) (x : string),
    is_quote q = true -> is_quote q' = true ->
    strip_quotes_and_whitespace x = x ->
    normalizePath up norm (String q (x ++ String q' EmptyString))
    = normalizePath up norm x.
Proof.
  intros up norm q q' x Hq Hq' Hx. unfold normalizePath.
  now rewrite (strip_quoted q q' x Hq Hq'), Hx.
Qed.

Lemma normalizePath_quoted_witness :
  is_quote dquote = true /\ is_quote squote = true
  /\ strip_quotes_and_whitespace "C:/foo/bar" = "C:/foo/bar"
  /\ normalizePath toUpperCase_latin1 posix_normalize
       (String dquote ("C:/foo/bar" ++ String squote EmptyString))
     = "C:\foo\bar"
  /\ normalizePath toUpperCase_latin1 posix_normalize
       (String dquote ("C:/foo/bar" ++ String squote EmptyString))
     = normalizePath toUpperCase_latin1 posix_normalize "C:/foo/bar".
Proof.
  repeat (split; [reflexivity |]).
  exact (normalizePath_quoted toUpperCase_latin1 posix_normalize dquote squote
           "C:/foo/bar" eq_refl eq_refl eq_refl).
Defined.

(** ** The Unix branch, again *)

Lemma remove_slashes_collapse (s : string) :
  remove_slashes (collapse_slashes s) = remove_slashes s.
Proof.
  induction s as [|c s IH]; [reflexivity |].
  cbn [collapse_slashes]. destruct s as [|c' s]; [reflexivity |].
  destruct (is_slash c && is_slash c') eqn:E.
  - rewrite IH. apply andb_prop in E as [E _].
    cbn [remove_slashes]. now rewrite E.
  - cbn [remove_slashes] in IH |- *. now rewrite IH.
Qed.

Lemma remove_slashes_trimEnd (s : string) :
  remove_slashes (trimEnd_by is_slash s) = remove_slashes s.
Proof.
  induction s as [|c s IH]; [reflexivity |].
  cbn [trimEnd_by remove_slashes].
  destruct (trimEnd_by is_slash s) as [|d r].
  - cbn [remove_slashes] in IH. rewrite <- IH.
    destruct (is_slash c) eqn:E; cbn [remove_slashes]; now rewrite ?E.
  - cbn [remove_slashes] in IH |- *. now rewrite IH.
Qed.

Lemma trimEnd_slashes_empty (s : string) :
  trimEnd_by is_slash s = EmptyString <-> remove_slashes s = EmptyString.
Proof.
  induction s as [|c s IH]; [split; reflexivity |].
  cbn [trimEnd_by remove_slashes].
  destruct (trimEnd_by is_slash s) as [|d r].
  - destruct (is_slash c).
    + split; intros _; [now apply IH | reflexivity].
    + split; discriminate.
  - destruct (is_slash c).
    + split; [discriminate |]. intros H. apply IH in H. discriminate H.
    + split; discriminate.
Qed.

Lemma isUnixPath_first (p : string) : isUnixPath p = true -> first_is is_slash p = true.
Proof.
  unfold isUnixPath. intros H. apply andb_prop in H as [H _].
  apply andb_prop in H as [H _].
  destruct p as [|c p]; [discriminate H |].
  cbn in H |- *. now rewrite andb_true_r in H.
Qed.

Lemma unix_result_first (up : ascii -> string) (norm : string -> string) (x : string) :
  isUnixPath (strip_quotes_and_whitespace x) = true ->
  normalizePath up norm x <> EmptyString ->
  first_is is_slash (normalizePath up norm x) = true.
Proof.
  intros Hu Hne. destruct (normalizePath_unix up norm x Hu) as (Hr & _).
  rewrite Hr in Hne |- *. unfold strip_trailing_slashes in Hne |- *.
  rewrite trimEnd_by_nonempty_first by exact Hne.
  rewrite collapse_slashes_first. now apply isUnixPath_first.
Qed.

(** X4. On the Unix branch [normalizePath] removes slashes and nothing
    else: the other code units of the trimmed and unquoted input,
    backslashes among them, are all in the result, in their order.
    The result is empty exactly when there is no other code unit;
    otherwise it starts with a slash, has no two slashes in a row and
    does not end with a slash. *)
Theorem normalizePath_unix_shape :
  forall (up : ascii -> string) (norm : string -> string) (x : string),
    isUnixPath (strip_quotes_and_whitespace x) = true ->
    remove_slashes (normalizePath up norm x)
    = remove_slashes (strip_quotes_and_whitespace x)
    /\ (normalizePath up norm x = EmptyString
        <-> remove_slashes (strip_quotes_and_whitespace x) = EmptyString)
    /\ (normalizePath up norm x <> EmptyString ->
        first_is is_slash (normalizePath up norm x) = true
        /\ has_double_slash (normalizePath up norm x) = false
        /\ last_is is_slash (normalizePath up norm x) = false).
Proof.
  intros up norm x Hu.
  destruct (normalizePath_unix up norm x Hu) as (Hr & Hd & Hl).
  split; [| split].
  - rewrite Hr. unfold strip_trailing_slashes.
    now rewrite remove_slashes_trimEnd, remove_slashes_collapse.
  - rewrite Hr. unfold strip_trailing_slashes.
    rewrite trimEnd_slashes_empty, remove_slashes_collapse. reflexivity.
  - intros Hne. split; [| split; assumption].
    now apply unix_result_first.
Qed.

Lemma normalizePath_unix_shape_witness :
  isUnixPath (strip_quotes_and_whitespace " //usr///local\x//bin// ") = true
  /\ normalizePath toUpperCase_latin1 posix_normalize " //usr///local\x//bin// "
     = "/usr/local\x/bin"
  /\ remove_slashes
       (normalizePath toUpperCase_latin1 posix_normalize " //usr///local\x//bin// ")
     = remove_slashes (strip_quotes_and_whitespace " //usr///local\x//bin// ").
Proof.
  split; [reflexivity |]. split; [reflexivity |].
  exact (proj1 (normalizePath_unix_shape toUpperCase_latin1 posix_normalize
                  " //usr///local\x//bin// " eq_refl)).
Defined.

Lemma first_slash_not_drive (r : string) :
  first_is is_slash r = true -> matches_drive r = false.
Proof.
  destruct r as [|c0 [|c1 r]]; try reflexivity.
  cbn. intros H. apply is_slash_true in H. now subst.
Qed.

Lemma drive_not_lower_is_upper (r : string) :
  matches_drive r = true -> matches_lower_drive r = false ->
  first_is is_upper r = true.
Proof.
  destruct r as [|c0 [|c1 r]]; try discriminate.
  cbn. unfold is_letter. intros H Hl.
  apply andb_prop in H as [H Hc]. rewrite Hc, andb_true_r in Hl.
  rewrite Hl in H. exact H.
Qed.

(** X5. Whatever the input and whatever [path.normalize] returns, the
    result of [normalizePath] never starts with a lower-case letter and
    a colon: when it is a drive path, its drive letter is upper case. *)
Theorem normalizePath_drive_letter_upper :
  forall (up : ascii -> string) (norm : string -> string) (x : string),
    matches_lower_drive (normalizePath up norm x) = false
    /\ (matches_drive (normalizePath up norm x) = true ->
        first_is is_upper (normalizePath up norm x) = true).
Proof.
  intros up norm x.
  assert (H : matches_lower_drive (normalizePath up norm x) = false).
  { destruct (isUnixPath (strip_quotes_and_whitespace x)) eqn:E.
    - pose proof (unix_result_first up norm x E) as Hs.
      destruct (normalizePath up norm x) as [|c r] eqn:Er; [reflexivity |].
      assert (Hf : first_is is_slash (String c r) = true) by (apply Hs; discriminate).
      destruct (matches_lower_drive (String c r)) eqn:El; [| reflexivity].
      apply matches_lower_drive_drive in El.
      now rewrite (first_slash_not_drive _ Hf) in El.
    - exact (proj2 (windows_result_facts up norm x E)). }
  split; [exact H |]. intros Hd. now apply drive_not_lower_is_upper.
Qed.

(** ** convertToWindowsPath, again *)

Lemma matches_mnt_letter_inv (p : string) :
  matches_mnt_letter p = true ->
  exists c rest, is_letter c = true /\ p = "/mnt/" ++ String c ("/" ++ rest).
Proof.
  unfold matches_mnt_letter. intros H. apply andb_prop in H as [Hp Hl].
  destruct (startsWith_app p "/mnt/" Hp) as [t ->].
  change (slice_from ("/mnt/" ++ t) 5) with t in Hl.
  destruct t as [|c [|c' rest]]; try discriminate Hl.
  apply andb_prop in Hl as [Hc Hs]. apply is_slash_true in Hs. subst c'.
  now exists c, rest.
Qed.

Lemma matches_unix_drive_inv (p : string) :
  matches_unix_drive p = true ->
  exists c rest, is_letter c = true /\ p = "/" ++ String c ("/" ++ rest).
Proof.
  destruct p as [|c0 [|c1 [|c2 rest]]]; try discriminate.
  cbn [matches_unix_drive]. intros H.
  apply andb_prop in H as [H H2]. apply andb_prop in H as [H0 H1].
  apply is_slash_true in H0, H2. subst. now exists c1, rest.
Qed.

Lemma matches_drive_inv (p : string) :
  matches_drive p = true ->
  exists c rest, is_letter c = true /\ p = String c (":" ++ rest).
Proof.
  destruct p as [|c0 [|c1 rest]]; try discriminate.
  cbn [matches_drive]. intros H. apply andb_prop in H as [H0 H1].
  apply Ascii.eqb_eq in H1. subst. now exists c0, rest.
Qed.

Section Conversions.

Variable up : ascii -> string.

Lemma toUpperCase_ascii_unit (c : ascii) :
  is_ascii c = true ->
  toUpperCase up (String c EmptyString) = String (drive_upper c) EmptyString.
Proof.
  unfold is_ascii, drive_upper. intros H. cbn [toUpperCase]. unfold toUpperCase_unit.
  destruct (is_lower c); [reflexivity |]. now rewrite H.
Qed.

(** The first branch on any input that starts with [/mnt/] and has an
    ASCII code unit next. *)
Lemma convert_mnt_unit (c : ascii) (t : string) :
  is_ascii c = true ->
  convertToWindowsPath up ("/mnt/" ++ String c t)
  = String (drive_upper c) (":" ++ replace_slashes t).
Proof.
  intros Hc. unfold convertToWindowsPath.
  change (startsWith ("/mnt/" ++ String c t) "/mnt/") with true. cbv iota.
  change (charAt ("/mnt/" ++ String c t) 5) with (String c EmptyString).
  change (slice_from ("/mnt/" ++ String c t) 6) with t.
  now rewrite (toUpperCase_ascii_unit c Hc).
Qed.

Lemma convert_unix_drive (c : ascii) (rest : string) :
  is_letter c = true ->
  convertToWindowsPath up ("/" ++ String c ("/" ++ rest))
  = String (drive_upper c) (":\" ++ replace_slashes rest).
Proof.
  intros Hc. unfold convertToWindowsPath.
  assert (E : startsWith ("/" ++ String c ("/" ++ rest)) "/mnt/" = false).
  { cbn. destruct (Ascii.eqb c "m"); reflexivity. }
  rewrite E.
  assert (M : matches_unix_drive ("/" ++ String c ("/" ++ rest)) = true).
  { cbn. now rewrite Hc. }
  rewrite M.
  change (charAt ("/" ++ String c ("/" ++ rest)) 1) with (String c EmptyString).
  change (slice_from ("/" ++ String c ("/" ++ rest)) 2) with ("/" ++ rest).
  now rewrite (toUpperCase_letter up c Hc).
Qed.

(** A converted drive path is left alone by a second conversion. *)
Lemma convert_converted (c : ascii) (r : string) :
  contains_slash r = false ->
  convertToWindowsPath up (String c (":" ++ r)) = String c (":" ++ r).
Proof.
  intros Hr. destruct (is_letter c) eqn:Hc.
  - rewrite (convertToWindowsPath_drive up c r Hc). now rewrite replace_slashes_id.
  - apply convertToWindowsPath_passthrough.
    + cbn. now rewrite andb_false_r.
    + destruct r; cbn [append matches_unix_drive]; [reflexivity |].
      now rewrite andb_false_r.
    + cbn. now rewrite Hc.
Qed.

End Conversions.

Lemma letter_is_ascii (c : ascii) : is_letter c = true -> is_ascii c = true.
Proof. intros H. now destruct (letter_facts c H) as (_ & _ & _ & _ & _ & ?). Qed.

(** X6. On an input in one of the three drive forms, [/mnt/] letter
    slash, slash letter slash, or letter colon, the result of
    [convertToWindowsPath] is a drive path, letter and colon first,
    with no slash left in it. *)
Theorem convertToWindowsPath_gives_drive_path :
  forall (up : ascii -> string) (p : string),
    matches_mnt_letter p || matches_unix_drive p || matches_drive p = true ->
    matches_drive (convertToWindowsPath up p) = true
    /\ contains_slash (convertToWindowsPath up p) = false.
Proof.
  intros up p H.
  assert (Hshape : forall c r, is_letter c = true -> contains_slash r = false ->
                     matches_drive (String c (":" ++ r)) = true
                     /\ contains_slash (String c (":" ++ r)) = false).
  { intros c r Hc Hr. destruct (letter_facts c Hc) as (Hs & _).
    cbn. now rewrite Hc, Hs, Hr. }
  apply orb_prop in H as [H | H]; [apply orb_prop in H as [H | H] |].
  - destruct (matches_mnt_letter_inv p H) as (c & rest & Hc & ->).
    rewrite (convert_mnt_unit up c _ (letter_is_ascii c Hc)).
    apply Hshape; [now destruct (drive_upper_facts c Hc) as (_ & _ & ? & _) |].
    apply replace_slashes_no_slash.
  - destruct (matches_unix_drive_inv p H) as (c & rest & Hc & ->).
    rewrite (convert_unix_drive up c rest Hc).
    apply (Hshape (drive_upper c) (String "\" (replace_slashes rest)));
      [now destruct (drive_upper_facts c Hc) as (_ & _ & ? & _) |].
    cbn. apply replace_slashes_no_slash.
  - destruct (matches_drive_inv p H) as (c & rest & Hc & ->).
    rewrite (convertToWindowsPath_drive up c rest Hc).
    apply Hshape; [exact Hc | apply replace_slashes_no_slash].
Qed.

Lemma convertToWindowsPath_gives_drive_path_witness :
  matches_mnt_letter "/mnt/d/a/b" || matches_unix_drive "/mnt/d/a/b"
  || matches_drive "/mnt/d/a/b" = true
  /\ convertToWindowsPath toUpperCase_latin1 "/mnt/d/a/b" = "D:\a\b"
  /\ matches_drive (convertToWindowsPath toUpperCase_latin1 "/mnt/d/a/b") = true
  /\ contains_slash (convertToWindowsPath toUpperCase_latin1 "/mnt/d/a/b") = false.
Proof.
  split; [reflexivity |]. split; [reflexivity |].
  exact (convertToWindowsPath_gives_drive_path toUpperCase_latin1 "/mnt/d/a/b" eq_refl).
Defined.

(** X7. [convertToWindowsPath] is idempotent: converting its result
    changes nothing, for every input in which the code unit after a
    leading [/mnt/], if there is one, is ASCII. *)
Theorem convertToWindowsPath_idempotent :
  forall (up : ascii -> string) (p : string),
    (startsWith p "/mnt/" = true -> all_in is_ascii (charAt p 5) = true) ->
    convertToWindowsPath up (convertToWindowsPath up p) = convertToWindowsPath up p.
Proof.
  intros up p Hascii.
  destruct (startsWith p "/mnt/") eqn:E1.
  - specialize (Hascii eq_refl).
    destruct (startsWith_app p "/mnt/" E1) as [t ->].
    destruct t as [|c t]; [reflexivity |].
    change (charAt ("/mnt/" ++ String c t) 5) with (String c EmptyString) in Hascii.
    cbn [all_in] in Hascii. rewrite andb_true_r in Hascii.
    rewrite (convert_mnt_unit up c t Hascii).
    apply convert_converted, replace_slashes_no_slash.
  - destruct (matches_unix_drive p) eqn:E2.
    + destruct (matches_unix_drive_inv p E2) as (c & rest & Hc & ->).
      rewrite (convert_unix_drive up c rest Hc).
      apply (convert_converted up (drive_upper c) (String "\" (replace_slashes rest))).
      cbn. apply replace_slashes_no_slash.
    + destruct (matches_drive p) eqn:E3.
      * destruct (matches_drive_inv p E3) as (c & rest & Hc & ->).
        rewrite (convertToWindowsPath_drive up c rest Hc).
        apply convert_converted, replace_slashes_no_slash.
      * now rewrite !(convertToWindowsPath_passthrough up p E1 E2 E3).
Qed.

Lemma convertToWindowsPath_idempotent_witness :
  convertToWindowsPath toUpperCase_latin1 "/mnt/c/Users/x" = "C:\Users\x"
  /\ convertToWindowsPath toUpperCase_latin1
       (convertToWindowsPath toUpperCase_latin1 "/mnt/c/Users/x")
     = convertToWindowsPath toUpperCase_latin1 "/mnt/c/Users/x".
Proof.
  split; [reflexivity |].
  exact (convertToWindowsPath_idempotent toUpperCase_latin1 "/mnt/c/Users/x"
           (fun _ => eq_refl)).
Defined.

(** ** Spellings of a drive path *)

Lemma trimEnd_by_app_keep (f : ascii -> bool) (pre s : string) :
  all_in (fun c => negb (f c)) pre = true ->
  trimEnd_by f (pre ++ s) = pre ++ trimEnd_by f s.
Proof.
  induction pre as [|c pre IH]; [reflexivity |].
  cbn [all_in append]. intros H. apply andb_prop in H as [Hc Hp].
  apply negb_true_iff in Hc. rewrite trimEnd_by_keep by exact Hc.
  now rewrite IH.
Qed.

Lemma strip_trailing_quote_app_keep (pre s : string) :
  all_in (fun c => negb (is_quote c)) pre = true ->
  strip_trailing_quote (pre ++ s) = pre ++ strip_trailing_quote s.
Proof.
  induction pre as [|c pre IH]; [reflexivity |].
  cbn [all_in append]. intros H. apply andb_prop in H as [Hc Hp].
  apply negb_true_iff in Hc. rewrite strip_trailing_quote_keep by exact Hc.
  now rewrite IH.
Qed.

Lemma all_in_weaken (f g : ascii -> bool) (s : string) :
  (forall c, f c = true -> g c = true) -> all_in f s = true -> all_in g s = true.
Proof.
  intros Hfg. induction s as [|c s IH]; [reflexivity |].
  cbn [all_in]. intros H. apply andb_prop in H as [Hc Hs].
  now rewrite (Hfg c Hc), IH.
Qed.

(** A prefix without white space and quotes stays, and the rest is
    trimmed and unquoted at its end. *)
Lemma strip_plain_prefix (c : ascii) (pre rest : string) :
  all_in is_plain (String c pre) = true ->
  strip_quotes_and_whitespace (String c pre ++ rest)
  = String c pre ++ strip_trailing_quote (trimEnd_by is_whitespace rest).
Proof.
  intros H.
  assert (Hw : all_in (fun c => negb (is_whitespace c)) (String c pre) = true).
  { apply (all_in_weaken is_plain); [| exact H].
    unfold is_plain. intros d Hd. now apply andb_prop in Hd as [? _]. }
  assert (Hq : all_in (fun c => negb (is_quote c)) (String c pre) = true).
  { apply (all_in_weaken is_plain); [| exact H].
    unfold is_plain. intros d Hd. now apply andb_prop in Hd as [_ ?]. }
  unfold strip_quotes_and_whitespace, trim, unquote.
  assert (Hcw : is_whitespace c = false).
  { cbn [all_in] in Hw. apply andb_prop in Hw as [Hw _]. now apply negb_true_iff. }
  assert (Hcq : is_quote c = false).
  { cbn [all_in] in Hq. apply andb_prop in Hq as [Hq _]. now apply negb_true_iff. }
  change (String c pre ++ rest) with (String c (pre ++ rest)) at 1.
  cbn [trimStart_by]. rewrite Hcw.
  change (String c (pre ++ rest)) with (String c pre ++ rest).
  rewrite (trimEnd_by_app_keep is_whitespace _ _ Hw).
  change (String c pre ++ trimEnd_by is_whitespace rest)
    with (String c (pre ++ trimEnd_by is_whitespace rest)) at 1.
  cbn [strip_leading_quote]. rewrite Hcq.
  change (String c (pre ++ trimEnd_by is_whitespace rest))
    with (String c pre ++ trimEnd_by is_whitespace rest).
  now apply strip_trailing_quote_app_keep.
Qed.

Lemma letter_is_plain (c : ascii) : is_letter c = true -> is_plain c = true.
Proof.
  intros H. destruct (letter_facts c H) as (_ & _ & Hq & Hw & _).
  unfold is_plain. now rewrite Hq, Hw.
Qed.

Section Spellings.

Variable up : ascii -> string.

Lemma handed_wsl (l : ascii) (rest : string) :
  is_letter l = true ->
  isUnixPath (strip_quotes_and_whitespace ("/mnt/" ++ String l ("/" ++ rest))) = false
  /\ handed_to_normalize up ("/mnt/" ++ String l ("/" ++ rest))
     = normalize_backslashes
         (String (drive_upper l)
            (":\" ++ replace_slashes
                       (strip_trailing_quote (trimEnd_by is_whitespace rest)))).
Proof.
  intros Hl.
  assert (Hs : strip_quotes_and_whitespace ("/mnt/" ++ String l ("/" ++ rest))
               = "/mnt/" ++ String l ("/" ++ strip_trailing_quote
                                                (trimEnd_by is_whitespace rest))).
  { apply (strip_plain_prefix "/" (String "m" (String "n" (String "t"
             (String "/" (String l (String "/" EmptyString)))))) rest).
    cbn. now rewrite (letter_is_plain l Hl). }
  unfold handed_to_normalize. rewrite Hs. split.
  - unfold isUnixPath. cbn. now rewrite Hl.
  - now rewrite (convert_mnt_unit up l _ (letter_is_ascii l Hl)).
Qed.

Lemma handed_unix_drive (l : ascii) (rest : string) :
  is_letter l = true ->
  isUnixPath (strip_quotes_and_whitespace ("/" ++ String l ("/" ++ rest))) = false
  /\ handed_to_normalize up ("/" ++ String l ("/" ++ rest))
     = normalize_backslashes
         (String (drive_upper l)
            (":\" ++ replace_slashes
                       (strip_trailing_quote (trimEnd_by is_whitespace rest)))).
Proof.
  intros Hl.
  assert (Hs : strip_quotes_and_whitespace ("/" ++ String l ("/" ++ rest))
               = "/" ++ String l ("/" ++ strip_trailing_quote
                                           (trimEnd_by is_whitespace rest))).
  { apply (strip_plain_prefix "/" (String l (String "/" EmptyString)) rest).
    cbn. now rewrite (letter_is_plain l Hl). }
  unfold handed_to_normalize. rewrite Hs. split.
  - unfold isUnixPath. cbn. rewrite Hl. cbn. now rewrite andb_false_r.
  - now rewrite (convert_unix_drive up l _ Hl).
Qed.

Lemma handed_drive_slash (l : ascii) (rest : string) :
  is_letter l = true ->
  isUnixPath (strip_quotes_and_whitespace (String l (":/" ++ rest))) = false
  /\ handed_to_normalize up (String l (":/" ++ rest))
     = normalize_backslashes
         (String l
            (":\" ++ replace_slashes
                       (strip_trailing_quote (trimEnd_by is_whitespace rest)))).
Proof.
  intros Hl.
  assert (Hs : strip_quotes_and_whitespace (String l (":/" ++ rest))
               = String l (":/" ++ strip_trailing_quote
                                     (trimEnd_by is_whitespace rest))).
  { apply (strip_plain_prefix l ":/" rest).
    cbn. now rewrite (letter_is_plain l Hl). }
  unfold handed_to_normalize. rewrite Hs. split.
  - destruct (letter_facts l Hl) as (Hsl & _).
    unfold isUnixPath. cbn [startsWith]. fold (is_slash l). now rewrite Hsl.
  - change (":/" ++ strip_trailing_quote (trimEnd_by is_whitespace rest))
      with (":" ++ ("/" ++ strip_trailing_quote (trimEnd_by is_whitespace rest))).
    now rewrite (convertToWindowsPath_drive up l _ Hl).
Qed.

End Spellings.

(** X8. The three spellings of a path on a drive, [/mnt/c/rest],
    [/c/rest] and [C:/rest], normalize to the same result, whatever
    [path.normalize] is: the first two are converted to the string the
    third becomes. *)
Theorem normalizePath_drive_spellings_agree :
  forall (up : ascii -> string) (norm : string -> string) (l : ascii) (rest : string),
    is_letter l = true ->
    normalizePath up norm ("/mnt/" ++ String l ("/" ++ rest))
    = normalizePath up norm (String (drive_upper l) (":/" ++ rest))
    /\ normalizePath up norm ("/" ++ String l ("/" ++ rest))
       = normalizePath up norm (String (drive_upper l) (":/" ++ rest)).
Proof.
  intros up norm l rest Hl.
  assert (HU : is_letter (drive_upper l) = true)
    by now destruct (drive_upper_facts l Hl) as (_ & _ & ? & _).
  destruct (handed_wsl up l rest Hl) as (U1 & H1).
  destruct (handed_unix_drive up l rest Hl) as (U2 & H2).
  destruct (handed_drive_slash up (drive_upper l) rest HU) as (U3 & H3).
  rewrite (normalizePath_windows up norm _ U1), (normalizePath_windows up norm _ U2),
    (normalizePath_windows up norm _ U3), H1, H2, H3.
  split; reflexivity.
Qed.

Lemma normalizePath_drive_spellings_agree_witness :
  is_letter "c" = true
  /\ normalizePath toUpperCase_latin1 posix_normalize "/mnt/c/Users\\x/y " = "C:\Users\x\y"
  /\ normalizePath toUpperCase_latin1 posix_normalize
       ("/mnt/" ++ String "c" ("/" ++ "Users\\x/y "))
     = normalizePath toUpperCase_latin1 posix_normalize
         (String (drive_upper "c") (":/" ++ "Users\\x/y ")).
Proof.
  split; [reflexivity |]. split; [reflexivity |].
  exact (proj1 (normalizePath_drive_spellings_agree toUpperCase_latin1 posix_normalize
                  "c" "Users\\x/y " eq_refl)).
Defined.

Lemma matches_wsl_mount_inv (p : string) :
  matches_wsl_mount p = true ->
  exists c1 c2 c3 l rest,
    p = String "/" (String c1 (String c2 (String c3
          (String "/" (String l (String "/" rest))))))
    /\ eqb_ci c2 "n" = true.
Proof.
  destruct p as [|c0 [|c1 [|c2 [|c3 [|c4 [|c5 [|c6 rest]]]]]]]; try discriminate.
  cbn [matches_wsl_mount]. intros H.
  repeat match goal with
         | H : _ && _ = true |- _ => apply andb_prop in H as [? ?]
         | H : is_slash _ = true |- _ => apply is_slash_true in H; subst
         end.
  now exists c1, c2, c3, c5, rest.
Qed.

Lemma eqb_ci_n_not_slash (c : ascii) : eqb_ci c "n" = true -> is_slash c = false.
Proof. ascii_cases c. Qed.

(** X9. The test of [normalizePath] for a WSL mount ignores the case of
    [mnt], the test of [convertToWindowsPath] does not: a path such as
    [/MNT/c/x] is not taken for a Unix path and is not converted to a
    drive path either.  [path.normalize] is handed the path with its
    doubled backslashes collapsed, and the result has no slash. *)
Theorem normalizePath_wsl_other_case :
  forall (up : ascii -> string) (norm : string -> string) (x : string),
    matches_wsl_mount (strip_quotes_and_whitespace x) = true ->
    startsWith (strip_quotes_and_whitespace x) "/mnt/" = false ->
    isUnixPath (strip_quotes_and_whitespace x) = false
    /\ convertToWindowsPath up (strip_quotes_and_whitespace x)
       = strip_quotes_and_whitespace x
    /\ handed_to_normalize up x = collapse_backslashes (strip_quotes_and_whitespace x)
    /\ contains_slash (normalizePath up norm x) = false.
Proof.
  intros up norm x Hw Hm.
  assert (Hu : isUnixPath (strip_quotes_and_whitespace x) = false).
  { unfold isUnixPath. rewrite Hw. cbn. now rewrite andb_false_r. }
  unfold handed_to_normalize.
  destruct (matches_wsl_mount_inv _ Hw) as (c1 & c2 & c3 & l & rest & Hp & Hn).
  rewrite Hp in Hm |- *.
  assert (Hc : convertToWindowsPath up
                 (String "/" (String c1 (String c2 (String c3
                    (String "/" (String l (String "/" rest)))))))
               = String "/" (String c1 (String c2 (String c3
                    (String "/" (String l (String "/" rest))))))).
  { apply convertToWindowsPath_passthrough; [exact Hm | | reflexivity].
    cbn [matches_unix_drive]. now rewrite (eqb_ci_n_not_slash c2 Hn), andb_false_r. }
  split; [now rewrite <- Hp |]. split; [exact Hc |]. split.
  - rewrite Hc. reflexivity.
  - exact (proj1 (windows_result_facts up norm x Hu)).
Qed.

Lemma normalizePath_wsl_other_case_witness :
  matches_wsl_mount (strip_quotes_and_whitespace "/MNT/c/foo") = true
  /\ startsWith (strip_quotes_and_whitespace "/MNT/c/foo") "/mnt/" = false
  /\ normalizePath toUpperCase_latin1 posix_normalize "/MNT/c/foo" = "\MNT\c\foo"
  /\ contains_slash (normalizePath toUpperCase_latin1 posix_normalize "/MNT/c/foo") = false.
Proof.
  split; [reflexivity |]. split; [reflexivity |]. split; [reflexivity |].
  exact (proj2 (proj2 (proj2 (normalizePath_wsl_other_case toUpperCase_latin1
                                posix_normalize "/MNT/c/foo" eq_refl eq_refl)))).
Defined.

(** ** Runs of backslashes *)

(** X10. The collapse of doubled backslashes halves a run, rounding up:
    inside a path that does not start with two backslashes, a run of
    [n] backslashes between two other code units becomes a run of
    [(n + 1) / 2], so four backslashes leave two and not one. *)
Theorem normalize_backslashes_halves_runs :
  forall (c : ascii) (n : nat) (t : string),
    is_backslash c = false ->
    first_is is_backslash t = false ->
    normalize_backslashes (String c (backslashes n ++ t))
    = String c (backslashes (Nat.div2 (S n)) ++ collapse_backslashes t).
Proof.
  intros c n t Hc Ht. unfold normalize_backslashes.
  cbn [startsWith]. fold (is_backslash c). rewrite Hc. cbn [andb].
  rewrite (collapse_backslashes_keep c _ Hc).
  now rewrite (proj1 (collapse_backslashes_run n t Ht)).
Qed.

Lemma normalize_backslashes_halves_runs_witness :
  is_backslash "a" = false /\ first_is is_backslash "b" = false
  /\ normalize_backslashes (String "a" (backslashes 4 ++ "b")) = "a\\b"
  /\ normalize_backslashes (String "a" (backslashes 4 ++ "b"))
     = String "a" (backslashes (Nat.div2 5) ++ collapse_backslashes "b").
Proof.
  split; [reflexivity |]. split; [reflexivity |]. split; [reflexivity |].
  exact (normalize_backslashes_halves_runs "a" 4 "b" eq_refl eq_refl).
Defined.

(** ** URIs, again *)

Lemma matches_drive_slice (d : string) :
  matches_drive (slice d 1 3) = matches_drive (slice_from d 1).
Proof.
  unfold slice. destruct d as [|c0 [|c1 [|c2 d]]]; reflexivity.
Qed.

Section UriSuccess.

Variable other : Type.
Variable URL_pathname : string -> outcome string.
Variable decodeURIComponent : string -> outcome string.

(** The outer [try] when the URI parses and its path decodes. *)
Lemma fileUriToPath_parsed (win32 : bool) (s pathname d : string) :
  startsWith s "file:" = true ->
  URL_pathname s = Returns pathname ->
  decodeURIComponent pathname = Returns d ->
  fileUriToPath URL_pathname decodeURIComponent win32 (@VString other s)
  = Returns (VString
      (if win32 then
         replace_slashes (if startsWith d "/" && matches_drive (slice d 1 3)
                          then slice_from d 1 else d)
       else d)).
Proof.
  intros Hs Hp Hd. unfold fileUriToPath, fileUriToPath_body.
  rewrite (startsWith_file_not_falsy other s Hs). cbn [as_string bind].
  rewrite Hs, Hp. cbn [negb bind]. rewrite Hd. cbn [bind try_catch].
  destruct win32; reflexivity.
Qed.

Lemma fileUriToPath_string (win32 : bool) (s : string) :
  exists s', fileUriToPath URL_pathname decodeURIComponent win32 (@VString other s)
             = Returns (VString s').
Proof.
  unfold fileUriToPath, fileUriToPath_body, fileUriToPath_fallback.
  cbn [as_string bind].
  destruct (falsy_or_not_string (VString s)); [cbn; eauto |].
  destruct (negb (startsWith s "file:")); [cbn; eauto |].
  destruct (URL_pathname s) as [pathname | e]; cbn [bind try_catch].
  - destruct (decodeURIComponent pathname) as [p | e]; cbn [bind try_catch]; [eauto |].
    destruct (decodeURIComponent (strip_file_scheme s)); cbn; eauto.
  - destruct (decodeURIComponent (strip_file_scheme s)); cbn; eauto.
Qed.

End UriSuccess.

(** X11. When the URI parses and its path decodes to [d],
    [fileUriToPath] returns [d] itself off Windows.  On Windows the
    result has no slash: it is [d] with backslashes for slashes, after
    the slash in front of a drive letter and colon, if [d] starts so,
    has been dropped; so [/C:/Users/x] becomes [C:\Users\x], and a
    path that does not start with a drive, such as [/home/x], keeps a
    backslash in front. *)
Theorem fileUriToPath_parsed_path :
  forall (other : Type) (URL_pathname decodeURIComponent : string -> outcome string)
         (s pathname d : string),
    startsWith s "file:" = true ->
    URL_pathname s = Returns pathname ->
    decodeURIComponent pathname = Returns d ->
    fileUriToPath URL_pathname decodeURIComponent false (@VString other s)
    = Returns (VString d)
    /\ (exists r,
          fileUriToPath URL_pathname decodeURIComponent true (@VString other s)
          = Returns (VString r)
          /\ contains_slash r = false)
    /\ (forall l rest,
          is_letter l = true -> d = "/" ++ String l (":" ++ rest) ->
          fileUriToPath URL_pathname decodeURIComponent true (@VString other s)
          = Returns (VString (String l (":" ++ replace_slashes rest))))
    /\ (matches_drive (slice_from d 1) = false ->
        fileUriToPath URL_pathname decodeURIComponent true (@VString other s)
        = Returns (VString (replace_slashes d))).
Proof.
  intros other URL_pathname decodeURIComponent s pathname d Hs Hp Hd.
  pose proof (fileUriToPath_parsed other URL_pathname decodeURIComponent)
    as H.
  split; [exact (H false s pathname d Hs Hp Hd) |].
  split; [| split].
  - eexists. split; [exact (H true s pathname d Hs Hp Hd) |].
    apply replace_slashes_no_slash.
  - intros l rest Hl ->. rewrite (H true s pathname _ Hs Hp Hd).
    rewrite matches_drive_slice.
    change (slice_from ("/" ++ String l (":" ++ rest)) 1) with (String l (":" ++ rest)).
    change (startsWith ("/" ++ String l (":" ++ rest)) "/") with true.
    destruct (letter_facts l Hl) as (Hsl & _).
    cbn [matches_drive append andb]. rewrite Hl. cbn [andb].
    change (is_colon ":") with true. cbv iota.
    cbn [replace_slashes]. now rewrite Hsl.
  - intros Hn. rewrite (H true s pathname d Hs Hp Hd).
    now rewrite matches_drive_slice, Hn, andb_false_r.
Qed.

Lemma fileUriToPath_parsed_path_witness :
  startsWith "file:///C:/Users/my%20x" "file:" = true
  /\ URL_pathname_plain "file:///C:/Users/my%20x" = Returns "/C:/Users/my%20x"
  /\ decodeURIComponent_ascii "/C:/Users/my%20x" = Returns "/C:/Users/my x"
  /\ fileUriToPath URL_pathname_plain decodeURIComponent_ascii false
       (@VString unit "file:///C:/Users/my%20x")
     = Returns (VString "/C:/Users/my x")
  /\ fileUriToPath URL_pathname_plain decodeURIComponent_ascii true
       (@VString unit "file:///C:/Users/my%20x")
     = Returns (VString "C:\Users\my x").
Proof.
  pose proof (fileUriToPath_parsed_path unit URL_pathname_plain decodeURIComponent_ascii
                "file:///C:/Users/my%20x" "/C:/Users/my%20x" "/C:/Users/my x"
                eq_refl eq_refl eq_refl) as (H1 & _ & H3 & _).
  split; [reflexivity |]. split; [reflexivity |]. split; [reflexivity |].
  split; [exact H1 |].
  exact (H3 "C"%char "/Users/my x" eq_refl eq_refl).
Defined.

(** X12. [decodePossibleFileUri] returns on every value, whatever
    [new URL] and [decodeURIComponent] do: a value that is not a string
    comes back as it is, and a string gives a string. *)
Theorem decodePossibleFileUri_never_throws :
  forall (other : Type) (URL_pathname decodeURIComponent : string -> outcome string)
         (platform_win32 : bool) (p : value other),
    (exists v, decodePossibleFileUri URL_pathname decodeURIComponent platform_win32 p
               = Returns v)
    /\ (forall s, p = VString s ->
          exists s', decodePossibleFileUri URL_pathname decodeURIComponent
                       platform_win32 p = Returns (VString s'))
    /\ (forall o, p = VOther o ->
          decodePossibleFileUri URL_pathname decodeURIComponent platform_win32 p
          = Returns p).
Proof.
  intros other URL_pathname decodeURIComponent platform_win32 p.
  assert (Hs : forall s,
             exists s', decodePossibleFileUri URL_pathname decodeURIComponent
                          platform_win32 (@VString other s) = Returns (VString s')).
  { intros s. unfold decodePossibleFileUri.
    destruct (startsWith s "file:"); [apply fileUriToPath_string |].
    destruct (has_percent_escape s); [| eauto].
    destruct (decodeURIComponent s); cbn; eauto. }
  split; [| split].
  - destruct p as [s | o]; [| cbn; eauto].
    destruct (Hs s) as [s' Hs']. eauto.
  - intros s ->. apply Hs.
  - intros o ->. reflexivity.
Qed.

(** ** expandHome *)

Lemma string_eqb_tilde_cons (c : ascii) (t : string) :
  String.eqb ("~" ++ String c t) "~" = false.
Proof. reflexivity. Qed.

(** X13. [expandHome] expands a tilde only when it is the whole path
    or is followed by a slash.  It then hands [path.join] the home
    directory and the rest of the path, the slash after the tilde
    included.  A tilde followed by anything else, as in [~user/x], and
    a path that does not start with a tilde come back as they are.
    With [path.posix.join] a lone tilde gives the normalized home
    directory. *)
Theorem expandHome_leading_tilde_only :
  forall (home : string) (join : string -> string -> string),
    expandHome home join "~" = join home EmptyString
    /\ (forall rest, expandHome home join ("~/" ++ rest) = join home ("/" ++ rest))
    /\ (forall c t, is_slash c = false ->
                    expandHome home join ("~" ++ String c t) = "~" ++ String c t)
    /\ (forall p, startsWith p "~" = false -> expandHome home join p = p)
    /\ (home <> EmptyString ->
        expandHome home (fun a b => posix_join [a; b]) "~" = posix_normalize home)
    /\ (forall rest,
          home <> EmptyString ->
          expandHome home (fun a b => posix_join [a; b]) ("~/" ++ rest)
          = posix_normalize (home ++ "//" ++ rest)).
Proof.
  intros home join.
  split; [reflexivity |]. split; [reflexivity |].
  split; [| split; [| split]].
  - intros c t Hc. unfold expandHome.
    rewrite string_eqb_tilde_cons, orb_false_r.
    cbn [append startsWith]. change (Ascii.eqb "~" "~") with true.
    fold (is_slash c). now rewrite Hc.
  - intros p Hp. unfold expandHome.
    destruct p as [|c p]; [reflexivity |].
    cbn [startsWith] in Hp |- *. rewrite andb_true_r in Hp.
    rewrite Hp. cbn [andb orb].
    destruct p; cbn; now rewrite Hp.
  - intros Hh. unfold expandHome. cbn [startsWith String.eqb orb slice_from].
    change (String.eqb "~" "~") with true. rewrite orb_true_r.
    cbn [slice_from]. unfold posix_join. cbn [fold_left].
    unfold posix_join_step at 2. destruct home as [|c h]; [now elim Hh |].
    reflexivity.
  - intros rest Hh. unfold expandHome.
    change (startsWith ("~/" ++ rest) "~/") with true. cbn [orb].
    change (slice_from ("~/" ++ rest) 1) with ("/" ++ rest).
    unfold posix_join. cbn [fold_left]. destruct home as [|c h]; [now elim Hh |].
    reflexivity.
Qed.

Example expandHome_posix_example :
  expandHome "/home/u" (fun a b => posix_join [a; b]) "~/docs/../notes" = "/home/u/notes"
  /\ expandHome "/home/u" (fun a b => posix_join [a; b]) "~" = "/home/u"
  /\ expandHome "/home/u" (fun a b => posix_join [a; b]) "~user/x" = "~user/x"
  /\ expandHome "/home/u" (fun a b => posix_join [a; b]) "a/~/b" = "a/~/b".
Proof. repeat split. Qed.

(** ** Drive paths on a host that is not Windows *)

Lemma posix_drive_result (up : ascii -> string) (x : string) (U : ascii) (r : string) :
  is_upper U = true ->
  contains_slash r = false ->
  isUnixPath (strip_quotes_and_whitespace x) = false ->
  handed_to_normalize up x = normalize_backslashes (String U (":\" ++ r)) ->
  normalizePath up posix_normalize x
  = String U (":" ++ collapse_backslashes (String "\" r)).
Proof.
  intros HU Hr Hx Hh.
  assert (Hl : is_letter U = true) by (unfold is_letter; now rewrite HU, orb_true_r).
  assert (Hlow : is_lower U = false) by (revert HU; clear; ascii_cases U).
  destruct (letter_facts U Hl) as (Hs & Hb & _).
  assert (Hn : normalize_backslashes (String U (":\" ++ r))
               = String U (":" ++ collapse_backslashes (String "\" r))).
  { unfold normalize_backslashes. cbn [append startsWith]. fold (is_backslash U).
    rewrite Hb. cbn [andb].
    rewrite (collapse_backslashes_keep U) by exact Hb.
    now rewrite (collapse_backslashes_keep ":") by reflexivity. }
  assert (Hc : contains_slash (collapse_backslashes (String "\" r)) = false).
  { apply collapse_backslashes_no_slash. cbn. exact Hr. }
  rewrite (normalizePath_windows up posix_normalize x Hx), Hh, Hn.
  rewrite posix_normalize_no_slash.
  - unfold restore_unc. cbn [append startsWith]. fold (is_backslash U).
    rewrite Hb. cbn [andb].
    pose proof (finish_drive up U (collapse_backslashes (String "\" r)) Hl) as Hf.
    cbn [append] in Hf. rewrite Hf, (drive_upper_fixed U Hlow).
    now rewrite (replace_slashes_id _ Hc).
  - discriminate.
  - cbn [append contains_slash]. rewrite Hs. cbn [orb].
    change (is_slash ":") with false. cbn [orb]. exact Hc.
Qed.

(** X14. Where [path.normalize] is [path.posix.normalize], a path on a
    drive in the WSL or in the Unix-style spelling normalizes to the
    upper-case drive letter, a colon, and the rest of the input with
    the white space and the quote at its end removed, its slashes
    turned into backslashes and its doubled backslashes collapsed.
    The slashes are gone before [path.normalize] is called, so the
    segments [.] and [..] are not resolved: [/mnt/c/a/../b] gives
    [C:\a\..\b]. *)
Theorem normalizePath_posix_drive_paths :
  forall (up : ascii -> string) (l : ascii) (rest : string),
    is_letter l = true ->
    normalizePath up posix_normalize ("/mnt/" ++ String l ("/" ++ rest))
    = String (drive_upper l)
        (":" ++ collapse_backslashes
                  (String "\" (replace_slashes
                                 (strip_trailing_quote (trimEnd_by is_whitespace rest)))))
    /\ normalizePath up posix_normalize ("/" ++ String l ("/" ++ rest))
       = String (drive_upper l)
           (":" ++ collapse_backslashes
                     (String "\" (replace_slashes
                                    (strip_trailing_quote (trimEnd_by is_whitespace rest)))))
    /\ normalizePath up posix_normalize "/mnt/c/a/../b" = "C:\a\..\b".
Proof.
  intros up l rest Hl.
  destruct (drive_upper_facts l Hl) as (HU & _).
  destruct (handed_wsl up l rest Hl) as (U1 & H1).
  destruct (handed_unix_drive up l rest Hl) as (U2 & H2).
  split; [| split].
  - apply posix_drive_result; try assumption. apply replace_slashes_no_slash.
  - apply posix_drive_result; try assumption. apply replace_slashes_no_slash.
  - destruct (handed_wsl up "c"%char "a/../b" eq_refl) as (U3 & H3).
    apply (posix_drive_result up "/mnt/c/a/../b" "C"%char "a\..\b");
      try reflexivity; assumption.
Qed.

Lemma normalizePath_posix_drive_paths_witness :
  is_letter "d" = true
  /\ normalizePath toUpperCase_latin1 posix_normalize
       ("/mnt/" ++ String "d" ("/" ++ "x/./y\\z' "))
     = "D:\x\.\y\z".
Proof.
  split; [reflexivity |].
  exact (proj1 (normalizePath_posix_drive_paths toUpperCase_latin1 "d" "x/./y\\z' " eq_refl)).
Defined.

(** ** Paths without a percent sign *)

Lemma has_percent_escape_percent (s : string) :
  contains_percent s = false -> has_percent_escape s = false.
Proof.
  induction s as [|c s IH]; [reflexivity |].
  cbn [contains_percent has_percent_escape]. intros H.
  apply orb_false_elim in H as [Hc Hs]. now rewrite Hc, (IH Hs).
Qed.

(** X15. A string without a percent sign that does not start with
    [file:] goes through [decodePossibleFileUri] unchanged, and so does
    a string whose percent signs are not followed by two hexadecimal
    digits, although [decodeURIComponent] would throw on it: neither
    [new URL] nor [decodeURIComponent] is consulted. *)
Theorem decodePossibleFileUri_plain_path :
  forall (other : Type) (URL_pathname decodeURIComponent : string -> outcome string)
         (platform_win32 : bool) (s : string),
    startsWith s "file:" = false ->
    contains_percent s = false \/ has_percent_escape s = false ->
    decodePossibleFileUri URL_pathname decodeURIComponent platform_win32 (@VString other s)
    = Returns (VString s).
Proof.
  intros other URL_pathname decodeURIComponent platform_win32 s Hs Hp.
  assert (H : has_percent_escape s = false).
  { destruct Hp as [Hp | Hp]; [now apply has_percent_escape_percent | exact Hp]. }
  unfold decodePossibleFileUri. now rewrite Hs, H.
Qed.

Lemma decodePossibleFileUri_plain_path_witness :
  startsWith "/tmp/100%/a%2" "file:" = false
  /\ has_percent_escape "/tmp/100%/a%2" = false
  /\ decodeURIComponent_ascii "/tmp/100%/a%2" = Throws URIError
  /\ decodePossibleFileUri URL_pathname_rejecting decodeURIComponent_ascii false
       (@VString unit "/tmp/100%/a%2")
     = Returns (VString "/tmp/100%/a%2").
Proof.
  split; [reflexivity |]. split; [reflexivity |]. split; [reflexivity |].
  exact (decodePossibleFileUri_plain_path unit URL_pathname_rejecting
           decodeURIComponent_ascii false "/tmp/100%/a%2" eq_refl (or_intror eq_refl)).
Defined.

End PathUtils.
